(** * Query execution, identity resolution and value coercion of the
      Kiro user-analytics dashboard ([src/app/app.py])

    A shallow embedding of the non-presentation part of [app.py]: the
    Athena polling loop, the result decoder of [fetch_data], the Glue
    table resolver, the Identity Store resolver and the permissive
    numeric coercions [safe_float] / [safe_int].

    Python values, exceptions and the three [boto3] services are modelled
    explicitly; every function keeps the name it has in the source.

    The functions are the bodies that the [@st.cache_data] decorators
    wrap, that is, what runs when the cache misses; the memoisation
    itself is the subject of [CacheLayer].  The [while True] loop of
    [execute_athena_query] is unfolded a bounded number of times, and the
    results say for which bounds it returns. *)

From Stdlib Require Import ZArith NArith String Ascii List Bool Lia.
From Stdlib Require Import Floats.SpecFloat DecimalString DecimalPos.
From stdpp Require Import base option list gmap strings.

(* ================================================================== *)
(** * Python exceptions and outcomes *)
(* ================================================================== *)

(** The exception classes that occur in the modelled code.  All of them
    derive from [Exception] in Python, so [except Exception] catches every
    constructor; [except (ValueError, TypeError)] catches exactly two. *)
Inductive exn : Type :=
  | Exception (msg : string)        (* [raise Exception(msg)] of the app   *)
  | ValueError
  | TypeError
  | OverflowError
  | IndexError
  | KeyError
  | ClientError (code : string).    (* botocore service / transport errors *)

Inductive outcome (A : Type) : Type :=
  | Ok (a : A)
  | Raise (e : exn).
Arguments Ok {A} a.
Arguments Raise {A} e.

Definition obind {A B} (r : outcome A) (k : A -> outcome B) : outcome B :=
  match r with Ok a => k a | Raise e => Raise e end.

Definition omap {A B} (f : A -> B) (r : outcome A) : outcome B :=
  obind r (fun a => Ok (f a)).

(** [try: body  except (cls...): handler] for a pure body. *)
Definition try_except {A} (body : outcome A) (catches : exn -> bool)
    (handler : outcome A) : outcome A :=
  match body with
  | Ok a => Ok a
  | Raise e => if catches e then handler else Raise e
  end.

Definition is_ValueError_or_TypeError (e : exn) : bool :=
  match e with ValueError | TypeError => true | _ => false end.

(* ================================================================== *)
(** * Python strings

    A [str] is modelled as a sequence of code points below 256. *)
(* ================================================================== *)

Module PyStr.

(** [str.isspace] on the code points below 256: TAB..CR, FS..US, space,
    NEL and NBSP. *)
Definition is_space (c : ascii) : bool :=
  let n := nat_of_ascii c in
  ((9 <=? n) && (n <=? 13)) || ((28 <=? n) && (n <=? 32))
  || (n =? 133) || (n =? 160).

Fixpoint lstrip_with (sp : ascii -> bool) (s : list ascii) : list ascii :=
  match s with
  | c :: s' => if sp c then lstrip_with sp s' else s
  | [] => []
  end.

Definition strip_with (sp : ascii -> bool) (s : list ascii) : list ascii :=
  rev (lstrip_with sp (rev (lstrip_with sp s))).

(** [s.strip()] *)
Definition strip (s : string) : string :=
  string_of_list_ascii (strip_with is_space (list_ascii_of_string s)).

(** [str(n)] for an [int]. *)
Definition of_Z (z : Z) : string := NilZero.string_of_int (Z.to_int z).

Definition eqb (a b : string) : bool := String.eqb a b.

End PyStr.

(* ================================================================== *)
(** * Python floats: IEEE 754 binary64, as [spec_float] with
      [prec = 53], [emax = 1024] *)
(* ================================================================== *)

Module PyFloat.

Definition prec : Z := 53.
Definition emax : Z := 1024.

Definition zero : spec_float := S754_zero false.

(** The binary64 nearest to [p / q] (ties to even), with sign [neg]. *)
Definition of_ratio (neg : bool) (p q : positive) : spec_float :=
  let '(mz, ez, lz) := SFdiv_core_binary prec emax (Zpos p) 0 (Zpos q) 0 in
  binary_round_aux prec emax neg mz ez lz.

(** The binary64 nearest to [m * 10^e]. *)
Definition of_decimal (neg : bool) (m : N) (e : Z) : spec_float :=
  match m with
  | N0 => S754_zero neg
  | Npos p =>
      match e with
      | Z0 => of_ratio neg p 1
      | Zpos k => of_ratio neg (p * Pos.pow 10 k) 1
      | Zneg k => of_ratio neg p (Pos.pow 10 k)
      end
  end.

(** [float(n)] for an [int]: correctly rounded, [OverflowError] when the
    integer is too large for a finite double. *)
Definition of_Z (z : Z) : outcome spec_float :=
  match binary_normalize prec emax z 0 false with
  | S754_infinity _ => Raise OverflowError
  | f => Ok f
  end.

(** [int(x)] for a [float]: truncation toward zero; infinities raise
    [OverflowError], NaN raises [ValueError]. *)
Definition to_Z (f : spec_float) : outcome Z :=
  match f with
  | S754_zero _ => Ok 0%Z
  | S754_infinity _ => Raise OverflowError
  | S754_nan => Raise ValueError
  | S754_finite s m e =>
      let a := match e with
               | Zneg k => Z.shiftr (Zpos m) (Zpos k)
               | _ => Z.shiftl (Zpos m) e
               end in
      Ok (if s then Z.opp a else a)
  end.

(** [bool(x)] for a [float]: only the two zeros are falsy. *)
Definition truthy (f : spec_float) : bool :=
  match f with S754_zero _ => false | _ => true end.

(** ** [float(s)] for a [str] *)

(** White space stripped by [float()]: the C white space, and the two
    non-ASCII spaces below 256, which are first turned into blanks. *)
Definition is_space (c : ascii) : bool :=
  let n := nat_of_ascii c in
  ((9 <=? n) && (n <=? 13)) || (n =? 32) || (n =? 133) || (n =? 160).

Definition is_digit (c : ascii) : bool :=
  let n := nat_of_ascii c in (48 <=? n) && (n <=? 57).

Definition digit_val (c : ascii) : N := N_of_ascii c - 48.

Definition is_underscore (c : ascii) : bool := nat_of_ascii c =? 95.

(** Underscores are allowed only between two digits; they are removed.
    [prev] is the previous character of the input, if any. *)
Fixpoint drop_underscores (prev : option ascii) (s : list ascii)
    : option (list ascii) :=
  match s with
  | [] =>
      match prev with
      | Some p => if is_underscore p then None else Some []
      | None => Some []
      end
  | c :: s' =>
      if is_underscore c then
        match prev with
        | Some p => if is_digit p then drop_underscores (Some c) s' else None
        | None => None
        end
      else
        let bad := match prev with
                   | Some p => is_underscore p && negb (is_digit c)
                   | None => false
                   end in
        if bad then None
        else option_map (cons c) (drop_underscores (Some c) s')
  end.

Definition take_sign (s : list ascii) : bool * list ascii :=
  match s with
  | c :: r =>
      if nat_of_ascii c =? 45 then (true, r)
      else if nat_of_ascii c =? 43 then (false, r)
      else (false, s)
  | [] => (false, [])
  end.

(** Reads a maximal run of digits: accumulated value, number of digits
    read, rest of the input. *)
Fixpoint take_digits (acc : N) (cnt : nat) (s : list ascii)
    : N * nat * list ascii :=
  match s with
  | c :: r =>
      if is_digit c then take_digits (acc * 10 + digit_val c) (S cnt) r
      else (acc, cnt, s)
  | [] => (acc, cnt, [])
  end.

Definition lower (c : ascii) : ascii :=
  let n := nat_of_ascii c in
  if (65 <=? n) && (n <=? 90) then ascii_of_nat (n + 32) else c.

Fixpoint starts_with (p s : list ascii) : option (list ascii) :=
  match p, s with
  | [], _ => Some s
  | a :: p', c :: s' =>
      if Ascii.eqb a (lower c) then starts_with p' s' else None
  | _ :: _, [] => None
  end.

(** ["inf"], ["infinity"] and ["nan"], in any letter case. *)
Definition parse_inf_nan (neg : bool) (s : list ascii)
    : option (spec_float * list ascii) :=
  match starts_with (list_ascii_of_string "inf") s with
  | Some r =>
      match starts_with (list_ascii_of_string "inity") r with
      | Some r' => Some (S754_infinity neg, r')
      | None => Some (S754_infinity neg, r)
      end
  | None =>
      match starts_with (list_ascii_of_string "nan") s with
      | Some r => Some (S754_nan, r)
      | None => None
      end
  end.

(** An exponent part [e[+-]digits]; it is not consumed when no digit
    follows. *)
Definition take_exponent (s : list ascii) : Z * list ascii :=
  match s with
  | c :: r =>
      if nat_of_ascii (lower c) =? 101 then
        let '(neg, r1) := take_sign r in
        let '(v, cnt, r2) := take_digits 0 0 r1 in
        match cnt with
        | O => (0%Z, s)
        | S _ => ((if neg then Z.opp (Z.of_N v) else Z.of_N v), r2)
        end
      else (0%Z, s)
  | [] => (0%Z, [])
  end.

(** [digits [. digits] [exponent]] with at least one mantissa digit:
    mantissa, decimal exponent, rest of the input. *)
Definition parse_decimal (s : list ascii) : option (N * Z * list ascii) :=
  let '(i, ci, r1) := take_digits 0 0 s in
  let '(m, cf, r2) :=
    match r1 with
    | c :: r =>
        if nat_of_ascii c =? 46 then
          let '(m, cf, r2) := take_digits i 0 r in (m, cf, r2)
        else (i, 0, r1)
    | [] => (i, 0, r1)
    end in
  match (ci + cf)%nat with
  | O => None
  | S _ =>
      let '(e, r3) := take_exponent r2 in
      Some (m, (e - Z.of_nat cf)%Z, r3)
  end.

(** [float(s)]: [None] stands for [ValueError]. *)
Definition of_string (s : string) : option spec_float :=
  let cs := PyStr.strip_with is_space (list_ascii_of_string s) in
  match drop_underscores None cs with
  | None => None
  | Some cs =>
      let '(neg, r) := take_sign cs in
      match parse_inf_nan neg r with
      | Some (f, []) => Some f
      | Some (_, _ :: _) => None
      | None =>
          match parse_decimal r with
          | Some (m, e, []) => Some (of_decimal neg m e)
          | _ => None
          end
      end
  end.

End PyFloat.

(* ================================================================== *)
(** * Python values reaching the coercions *)
(* ================================================================== *)

(** The cells of a decoded result are [str]; the defaults and the values
    the claims name are [None], [bool], [int] and [float]. *)
Inductive pyval : Type :=
  | PyNone
  | PyBool (b : bool)
  | PyInt (z : Z)
  | PyFloat (f : spec_float)
  | PyStr (s : string).

(** [str(x)] of a float is its shortest round-tripping decimal
    representation; that algorithm is outside this development and is
    kept abstract. *)
Class FloatRepr := float_repr : spec_float -> string.

Section Coercion.
Context `{R : FloatRepr}.

(** [bool(val)] *)
Definition truthy (val : pyval) : bool :=
  match val with
  | PyNone => false
  | PyBool b => b
  | PyInt z => negb (Z.eqb z 0)
  | PyFloat f => PyFloat.truthy f
  | PyStr s => negb (PyStr.eqb s "")
  end.

(** [str(val)] *)
Definition py_str (val : pyval) : string :=
  match val with
  | PyNone => "None"
  | PyBool true => "True"
  | PyBool false => "False"
  | PyInt z => PyStr.of_Z z
  | PyFloat f => float_repr f
  | PyStr s => s
  end.

(** [float(val)] *)
Definition py_float (val : pyval) : outcome spec_float :=
  match val with
  | PyNone => Raise TypeError
  | PyBool b => PyFloat.of_Z (if b then 1 else 0)
  | PyInt z => PyFloat.of_Z z
  | PyFloat f => Ok f
  | PyStr s =>
      match PyFloat.of_string s with
      | Some f => Ok f
      | None => Raise ValueError
      end
  end.

(** [x not in ('', 'None')] *)
Definition not_in_blank_or_None (x : string) : bool :=
  negb (PyStr.eqb x "" || PyStr.eqb x "None").

(** The guard [val and str(val).strip() not in ('', 'None')]; [and]
    does not evaluate its right operand when [val] is falsy. *)
Definition usable (val : pyval) : bool :=
  if truthy val then not_in_blank_or_None (PyStr.strip (py_str val))
  else false.

Definition safe_float (val default : pyval) : outcome pyval :=
  try_except
    (if usable val then omap PyFloat (py_float val) else Ok default)
    is_ValueError_or_TypeError
    (Ok default).

Definition safe_int (val default : pyval) : outcome pyval :=
  try_except
    (if usable val
     then omap PyInt (obind (py_float val) PyFloat.to_Z)
     else Ok default)
    is_ValueError_or_TypeError
    (Ok default).

End Coercion.

(* ================================================================== *)
(** * Configuration and the AWS services *)
(* ================================================================== *)

(** The constants that [from config import *] brings into [app.py]; the
    module [config] itself is not part of the sources at hand, so its
    values are parameters.  The two optional settings may be unset
    ([None]) or set to the empty string; both are falsy. *)
Record Config : Type := {
  AWS_REGION : string;
  ATHENA_DATABASE : string;
  ATHENA_OUTPUT_BUCKET : string;
  GLUE_TABLE_NAME : option string;
  IDENTITY_STORE_ID : option string
}.

(** Branching on the truth value of an optional string, as [if X:] and
    [X or ...] do: [yes] receives the value when it is set and not
    empty. *)
Definition if_truthy {A} (x : option string) (yes : string -> A) (no : A) : A :=
  match x with
  | Some s => if PyStr.eqb s "" then no else yes s
  | None => no
  end.

Definition truthy_opt (x : option string) : bool :=
  if_truthy x (fun _ => true) false.

(** ** Responses of the services (the fields the code reads) *)

(** [result['QueryExecution']['Status']] *)
Record QueryStatus : Type := {
  State : string;
  StateChangeReason : option string
}.

Record Datum : Type := { VarCharValue : option string }.
Record Row : Type := { Data : list Datum }.
Record ColumnInfo : Type := { Label : string }.

(** [result['ResultSet']]: [Rows], and [ResultSetMetadata.ColumnInfo]. *)
Record ResultSet : Type := {
  Rows : list Row;
  ResultSetMetadata : list ColumnInfo
}.

Record Table : Type := { Name : string }.
Record GetTablesResponse : Type := { TableList : option (list Table) }.

Record Email : Type := { Value : option string }.
Record DescribeUserResponse : Type := {
  UserName : option string;
  DisplayName : option string;
  Emails : option (list Email)
}.

(** ** Observable actions *)

Inductive event : Type :=
  | StartQueryExecution (QueryString Database OutputLocation : string)
  | GetQueryExecution (QueryExecutionId : string)
  | Sleep (seconds : nat)
  | GetQueryResults (QueryExecutionId : string)
  | GetTables (DatabaseName : string) (MaxResults : nat)
  | DescribeUser (IdentityStoreId UserId : string).

(** The services are deterministic oracles: a reply depends on the
    request and on how many requests were answered before it, which
    covers every fixed schedule of replies.  [boto3_client] stands for
    the construction of a client, which performs no request. *)
Record AWS : Type := {
  boto3_client : string -> outcome unit;
  start_query_execution : nat -> string -> string -> string -> outcome string;
  get_query_execution : nat -> string -> outcome QueryStatus;
  get_query_results : nat -> string -> outcome ResultSet;
  get_tables : nat -> string -> nat -> outcome GetTablesResponse;
  describe_user : nat -> string -> string -> outcome DescribeUserResponse
}.

(** The world threaded through the program: the number of requests sent
    so far and the log of actions, oldest first. *)
Record World : Type := {
  requests : nat;
  log : list event
}.

Definition initial_world : World := {| requests := 0; log := [] |}.

Definition M (A : Type) : Type := World -> outcome A * World.

Definition ret {A} (a : A) : M A := fun w => (Ok a, w).

Definition raise {A} (e : exn) : M A := fun w => (Raise e, w).

Definition bind {A B} (m : M A) (k : A -> M B) : M B :=
  fun w =>
    match m w with
    | (Ok a, w') => k a w'
    | (Raise e, w') => (Raise e, w')
    end.

Definition lift {A} (r : outcome A) : M A := fun w => (r, w).

(** [try: body  except Exception: handler] *)
Definition try_except_Exception {A} (body : M A) (handler : M A) : M A :=
  fun w =>
    match body w with
    | (Ok a, w') => (Ok a, w')
    | (Raise _, w') => handler w'
    end.

Declare Scope py_scope.
Delimit Scope py_scope with py.
Notation "x <- m ;; k" := (bind m (fun x => k))
  (at level 100, m at next level, right associativity) : py_scope.

(** One request: the oracle answers for the current sequence number,
    the request is logged and counted. *)
Definition request {A} (ev : event) (reply : nat -> outcome A) : M A :=
  fun w =>
    (reply (requests w),
     {| requests := S (requests w); log := log w ++ [ev] |}).

(** [time.sleep(n)] *)
Definition sleep (n : nat) : M unit :=
  fun w => (Ok tt, {| requests := requests w; log := log w ++ [Sleep n] |}).

(** Computations that may loop: [None] means that the computation did
    not return within the given number of loop iterations. *)
Definition D (A : Type) : Type := World -> option (outcome A * World).

Definition dret {A} (a : A) : D A := fun w => Some (Ok a, w).

Definition draise {A} (e : exn) : D A := fun w => Some (Raise e, w).

Definition dbind {A B} (m : D A) (k : A -> D B) : D B :=
  fun w =>
    match m w with
    | Some (Ok a, w') => k a w'
    | Some (Raise e, w') => Some (Raise e, w')
    | None => None
    end.

Definition total {A} (m : M A) : D A := fun w => Some (m w).

Definition out_of_fuel {A} : D A := fun _ => None.

Declare Scope loop_scope.
Delimit Scope loop_scope with loop.
Notation "x <- m ;; k" := (dbind m (fun x => k))
  (at level 100, m at next level, right associativity) : loop_scope.

(** The table handed to the presentation layer: the two arguments that
    [pd.DataFrame(rows, columns=columns)] is built from.  The service
    sends as many cells in a row as it sends column labels. *)
Record DataFrame : Type := {
  columns : list string;
  rows : list (list string)
}.

Section App.
Variable cfg : Config.
Variable aws : AWS.

Local Open Scope py_scope.

Definition get_athena_client : M unit := lift (boto3_client aws "athena").
Definition get_identity_store_client : M unit :=
  lift (boto3_client aws "identitystore").
Definition get_glue_client : M unit := lift (boto3_client aws "glue").

(** ** [resolve_table_name] *)

Definition no_tables_message : string :=
  "No tables found in Glue database '" +:+ ATHENA_DATABASE cfg +:+
  "'. Run the Glue crawler first, or set GLUE_TABLE_NAME in .env.".

(** The [try] block: [Some name] when it returns, [None] when control
    falls out of it. *)
Definition discover_table : M (option string) :=
  _ <- get_glue_client ;;
  response <- request (GetTables (ATHENA_DATABASE cfg) 1)
                (fun n => get_tables aws n (ATHENA_DATABASE cfg) 1) ;;
  match default [] (TableList response) with
  | t :: _ => ret (Some (Name t))
  | [] => ret None
  end.

Definition resolve_table_name : M string :=
  if_truthy (GLUE_TABLE_NAME cfg) ret
    (found <- try_except_Exception discover_table (ret None) ;;
     match found with
     | Some name => ret name
     | None => raise (Exception no_tables_message)
     end).

(** ** [get_username] *)

(** [response.get('UserName') or response.get('DisplayName') or
     response.get('Emails', [{}])[0].get('Value') or userid];
    indexing an empty [Emails] list raises [IndexError]. *)
Definition display_name (response : DescribeUserResponse) (userid : string)
    : outcome string :=
  if_truthy (UserName response) Ok
    (if_truthy (DisplayName response) Ok
       match default [ {| Value := None |} ] (Emails response) with
       | first :: _ => if_truthy (Value first) Ok (Ok userid)
       | [] => Raise IndexError
       end).

Definition get_username (userid : string) : M string :=
  if_truthy (IDENTITY_STORE_ID cfg)
    (fun store =>
       try_except_Exception
         (_ <- get_identity_store_client ;;
          response <- request (DescribeUser store userid)
                        (fun n => describe_user aws n store userid) ;;
          lift (display_name response userid))
         (ret userid))
    (ret userid).

(** ** [get_usernames_batch]

    [{uid: get_username(uid) for uid in userids}]: the identifiers are
    visited in order and each result is stored under its identifier. *)
Fixpoint dict_of_usernames (userids : list string) (acc : gmap string string)
    : M (gmap string string) :=
  match userids with
  | [] => ret acc
  | uid :: userids' =>
      name <- get_username uid ;;
      dict_of_usernames userids' (<[uid := name]> acc)
  end.

Definition get_usernames_batch (userids : list string)
    : M (gmap string string) :=
  dict_of_usernames userids ∅.

(** ** [execute_athena_query] *)

Definition is_terminal (status : string) : bool :=
  existsb (PyStr.eqb status) ["SUCCEEDED"; "FAILED"; "CANCELLED"].

Local Open Scope loop_scope.

(** The [while True] loop; [fuel] bounds the number of iterations that
    are unfolded. *)
Fixpoint poll (fuel : nat) (qid : string) : D QueryStatus :=
  match fuel with
  | O => out_of_fuel
  | S fuel' =>
      result <- total (request (GetQueryExecution qid)
                         (fun n => get_query_execution aws n qid)) ;;
      if is_terminal (State result) then dret result
      else
        _ <- total (sleep 1) ;;
        poll fuel' qid
  end.

Definition execute_athena_query (fuel : nat) (query : string) : D string :=
  _ <- total get_athena_client ;;
  qid <- total (request
                  (StartQueryExecution query (ATHENA_DATABASE cfg)
                     (ATHENA_OUTPUT_BUCKET cfg))
                  (fun n => start_query_execution aws n query
                              (ATHENA_DATABASE cfg)
                              (ATHENA_OUTPUT_BUCKET cfg))) ;;
  result <- poll fuel qid ;;
  if PyStr.eqb (State result) "SUCCEEDED" then dret qid
  else
    let error_msg := default "Unknown error" (StateChangeReason result) in
    draise (Exception ("Query failed: " +:+ error_msg)).

(** ** [fetch_data] *)

(** [field.get('VarCharValue', '')] *)
Definition cell_text (field : Datum) : string :=
  default "" (VarCharValue field).

(** [[field.get('VarCharValue', '') for field in row['Data']]] *)
Definition decode_row (row : Row) : list string :=
  cell_text <$> Data row.

(** The part of [fetch_data] after the results were fetched: the labels
    of the columns, and the rows from index 1 on. *)
Definition decode (result : ResultSet) : DataFrame :=
  {| columns := Label <$> ResultSetMetadata result;
     rows := decode_row <$> drop 1 (Rows result) |}.

Definition fetch_data (fuel : nat) (query : string) : D DataFrame :=
  _ <- total get_athena_client ;;
  qid <- execute_athena_query fuel query ;;
  result <- total (request (GetQueryResults qid)
                     (fun n => get_query_results aws n qid)) ;;
  dret (decode result).

End App.

(** ** The cache windows of the decorated functions

    [@st.cache_data(ttl=...)] on [resolve_table_name], [get_username],
    [get_usernames_batch] and [fetch_data], in seconds. *)
Definition ttl_resolve_table_name : Z := 3600.
Definition ttl_get_username : Z := 3600.
Definition ttl_get_usernames_batch : Z := 3600.
Definition ttl_fetch_data : Z := 300.

(* ================================================================== *)
(** * The cache layer *)
(* ================================================================== *)

Module CacheLayer.
Section CacheLayer.
(** Keys, cached values, and the state a producer works on (for the
    application: the world of requests). *)
Context {K V S : Type} `{Countable K}.

(** Modelled from the spec: the entry of [st.cache_data], whose code
    (Streamlit) is not among the sources.  An entry is a (key, value,
    inserted-at, ttl) tuple; the key is the one it is stored under. *)
Record CacheEntry : Type := {
  value : V;
  inserted_at : Z;
  ttl : Z
}.

(** Modelled from the spec: staleness of an entry of [st.cache_data]:
    an entry is stale when [now - inserted_at > ttl]. *)
Definition stale (now : Z) (e : CacheEntry) : bool :=
  (ttl e <? now - inserted_at e)%Z.

(** Modelled from the spec: the store behind [st.cache_data]; [invoked]
    lists, oldest first, the keys whose producer was run. *)
Record Cache : Type := {
  store : gmap K CacheEntry;
  invoked : list K
}.

Definition empty : Cache := {| store := ∅; invoked := [] |}.

(** Stale entries are treated as absent; they are not removed. *)
Definition lookup_fresh (now : Z) (key : K) (c : Cache) : option V :=
  match store c !! key with
  | Some e => if stale now e then None else Some (value e)
  | None => None
  end.

(** Number of runs of the producer of [key]. *)
Definition invocations (key : K) (c : Cache) : nat :=
  length (filter (fun k => k = key) (invoked c)).

(** Modelled from the spec: [get(key, ttl, producer)] of the cache layer
    ([st.cache_data], not among the sources), called at time [now]:
    returns a cached value if present and not stale; otherwise invokes
    the producer, stores the result with the current timestamp, and
    returns it. *)
Definition get (now : Z) (key : K) (ttl : Z) (producer : S -> V * S)
    (cs : Cache * S) : V * (Cache * S) :=
  let '(c, s) := cs in
  match lookup_fresh now key c with
  | Some v => (v, (c, s))
  | None =>
      let '(v, s') := producer s in
      (v, ({| store := <[key := {| value := v; inserted_at := now;
                                   ttl := ttl |}]> (store c);
              invoked := invoked c ++ [key] |}, s'))
  end.

(** Modelled from the spec: [invalidateAll()] ([st.cache_data.clear()]),
    which drops every cached entry regardless of its TTL. *)
Definition invalidateAll (c : Cache) : Cache :=
  {| store := ∅; invoked := invoked c |}.

End CacheLayer.
Arguments CacheEntry : clear implicits.
Arguments Cache K V {_ _}.
End CacheLayer.

(* ================================================================== *)
(** * Concrete services used to run the model *)
(* ================================================================== *)

Module Scenario.

Definition cfg : Config :=
  {| AWS_REGION := "us-east-1";
     ATHENA_DATABASE := "kiro";
     ATHENA_OUTPUT_BUCKET := "s3://results/";
     GLUE_TABLE_NAME := None;
     IDENTITY_STORE_ID := Some "d-1234" |}.

(** No identity directory, and a table-name override. *)
Definition cfg_plain : Config :=
  {| AWS_REGION := "us-east-1";
     ATHENA_DATABASE := "kiro";
     ATHENA_OUTPUT_BUCKET := "s3://results/";
     GLUE_TABLE_NAME := Some "user_report";
     IDENTITY_STORE_ID := None |}.

Definition cell (s : string) : Datum := {| VarCharValue := Some s |}.
Definition null_cell : Datum := {| VarCharValue := None |}.

Definition results : ResultSet :=
  {| Rows := [ {| Data := [cell "userid"; cell "total_messages"] |};
               {| Data := [cell "u-1"; cell "42"] |};
               {| Data := [cell "u-2"; null_cell] |} ];
     ResultSetMetadata := [ {| Label := "userid" |};
                            {| Label := "total_messages" |} ] |}.

Definition alice : DescribeUserResponse :=
  {| UserName := Some "alice"; DisplayName := Some "Alice A.";
     Emails := Some [ {| Value := Some "alice@example.com" |} ] |}.

(** The status replies follow [states], then stay at [last]. *)
Definition scripted (states : list QueryStatus) (last : QueryStatus) : AWS :=
  {| boto3_client := fun _ => Ok tt;
     start_query_execution := fun _ _ _ _ => Ok "q-1";
     get_query_execution := fun n _ => Ok (nth (n - 1) states last);
     get_query_results := fun _ _ => Ok results;
     get_tables := fun _ _ _ =>
       Ok {| TableList := Some [ {| Name := "user_report" |} ] |};
     describe_user := fun _ _ uid =>
       if PyStr.eqb uid "u-1" then Ok alice
       else Raise (ClientError "ResourceNotFoundException") |}.

Definition status (st : string) : QueryStatus :=
  {| State := st; StateChangeReason := None |}.

(** Queued once, running twice, then succeeded. *)
Definition succeeding : AWS :=
  scripted [status "QUEUED"; status "RUNNING"; status "RUNNING"]
    (status "SUCCEEDED").

(** Failed at the first status check, with a reason. *)
Definition failing : AWS :=
  scripted []
    {| State := "FAILED";
       StateChangeReason := Some "Syntax error in SQL" |}.

(** A catalogue without tables. *)
Definition no_tables : AWS :=
  {| boto3_client := fun _ => Ok tt;
     start_query_execution := fun _ _ _ _ => Ok "q-1";
     get_query_execution := fun _ _ => Ok (status "SUCCEEDED");
     get_query_results := fun _ _ => Ok results;
     get_tables := fun _ _ _ => Ok {| TableList := Some [] |};
     describe_user := fun _ _ _ => Raise (ClientError "ThrottlingException") |}.

(** A catalogue whose listing fails. *)
Definition listing_fails : AWS :=
  {| boto3_client := fun _ => Ok tt;
     start_query_execution := fun _ _ _ _ => Ok "q-1";
     get_query_execution := fun _ _ => Ok (status "SUCCEEDED");
     get_query_results := fun _ _ => Ok results;
     get_tables := fun _ _ _ => Raise (ClientError "AccessDeniedException");
     describe_user := fun _ _ _ => Raise (ClientError "ThrottlingException") |}.

Definition query : string := "SELECT 1".

Definition submission : event :=
  StartQueryExecution query "kiro" "s3://results/".

(** The world [fetch_data] leaves behind with the service [succeeding]. *)
Definition world_fetched : World :=
  {| requests := 6;
     log := [submission;
             GetQueryExecution "q-1"; Sleep 1;
             GetQueryExecution "q-1"; Sleep 1;
             GetQueryExecution "q-1"; Sleep 1;
             GetQueryExecution "q-1";
             GetQueryResults "q-1"] |}.

Definition table : DataFrame :=
  {| columns := ["userid"; "total_messages"];
     rows := [["u-1"; "42"]; ["u-2"; ""]] |}.

(** The world [fetch_data] leaves behind with the service [failing]. *)
Definition world_failed : World :=
  {| requests := 2; log := [submission; GetQueryExecution "q-1"] |}.

(** A producer that counts its runs. *)
Definition counting_producer (runs : nat) : string * nat :=
  ("alice", S runs).

#[export] Instance repr : FloatRepr := fun _ => "1.5".

(** The float [7.0]. *)
Definition seven : spec_float := Eval cbv in PyFloat.of_decimal false 7 0.

End Scenario.

(** ** Counting the actions of a log *)

Definition is_status_poll (ev : event) : bool :=
  match ev with GetQueryExecution _ => true | _ => false end.

Definition is_sleep (ev : event) : bool :=
  match ev with Sleep _ => true | _ => false end.

Definition is_result_fetch (ev : event) : bool :=
  match ev with GetQueryResults _ => true | _ => false end.

Definition count (p : event -> bool) (l : list event) : nat :=
  length (List.filter p l).

Definition status_polls (l : list event) : nat := count is_status_poll l.

(** ** Reading the result of a run *)


(** The world after one more request. *)
Definition after_request (ev : event) (w : World) : World :=
  {| requests := S (requests w); log := log w ++ [ev] |}.

(* ================================================================== *)
(** * Reference definitions, following the specification *)
(* ================================================================== *)

(** The name the spec prescribes for a directory record: the username,
    else the display name, else the value of the first listed e-mail
    address, else the identifier; a field counts as present when it is
    set and not empty. *)
Definition present (x : option string) : option string :=
  match x with
  | Some s => if decide (s = "") then None else Some s
  | None => None
  end.

Definition first_email (response : DescribeUserResponse) : option string :=
  match Emails response with
  | Some (first :: _) => present (Value first)
  | _ => None
  end.

Definition name_by_priority (response : DescribeUserResponse)
    (userid : string) : string :=
  match present (UserName response) with
  | Some name => name
  | None =>
      match present (DisplayName response) with
      | Some name => name
      | None =>
          match first_email response with
          | Some address => address
          | None => userid
          end
      end
  end.

(** The log of a polling loop that sees [n] non-terminal states and then
    a terminal one: a status check and a sleep of one second, [n] times,
    and a last status check. *)
Definition polling_log (qid : string) (n : nat) : list event :=
  concat (replicate n [GetQueryExecution qid; Sleep 1])
  ++ [GetQueryExecution qid].

(** The status replies number [from], ..., [from + n - 1] for [qid] are
    all non-terminal states. *)
Definition pending_until (aws : AWS) (qid : string) (from n : nat) : Prop :=
  forall k, k < n ->
    exists st, get_query_execution aws (from + k) qid = Ok st /\
               is_terminal (State st) = false.

(** The world after [n] rounds of status check and sleep. *)
Definition after_pending (qid : string) (n : nat) (w : World) : World :=
  {| requests := requests w + n;
     log := log w ++ concat (replicate n [GetQueryExecution qid; Sleep 1]) |}.

(** What [execute_athena_query] answers once the loop has stopped. *)
Definition verdict (qid : string) (final : QueryStatus) : outcome string :=
  if PyStr.eqb (State final) "SUCCEEDED" then Ok qid
  else Raise (Exception ("Query failed: " +:+
                         default "Unknown error" (StateChangeReason final))).

(** The world after the submission, [n] pending rounds and the last
    status check. *)
Definition after_polling (cfg : Config) (query qid : string) (n : nat)
    (w : World) : World :=
  {| requests := requests w + n + 2;
     log := log w
            ++ StartQueryExecution query (ATHENA_DATABASE cfg)
                 (ATHENA_OUTPUT_BUCKET cfg)
               :: polling_log qid n |}.

(** [needle in hay] for strings. *)
Definition contains (needle hay : string) : Prop :=
  exists pre post, hay = pre +:+ needle +:+ post.

(** A single-user look-up of one of the identifiers [userids]. *)
Definition is_lookup_of (userids : list string) (ev : event) : Prop :=
  exists store uid, ev = DescribeUser store uid /\ uid ∈ userids.

(* ================================================================== *)
(** * The engagement report of [main] *)
(* ================================================================== *)

(** A row of [df_users] once [safe_int] has been applied to its counters:
    the two columns that the segmentation and the funnel read. *)
Record UserRow : Type := {
  total_messages : Z;
  total_conversations : Z
}.

(** [categorize_user(row)] *)
Definition categorize_user (row : UserRow) : string :=
  if (100 <=? total_messages row)%Z || (20 <=? total_conversations row)%Z
  then "Power Users"
  else if (20 <=? total_messages row)%Z || (5 <=? total_conversations row)%Z
  then "Active Users"
  else if (0 <? total_messages row)%Z
  then "Light Users"
  else "Idle Users".

(** The order of the categories, from no engagement to the highest. *)
Definition category_rank (cat : string) : nat :=
  if String.eqb cat "Power Users" then 3
  else if String.eqb cat "Active Users" then 2
  else if String.eqb cat "Light Users" then 1
  else 0.

(** The dictionary [color_map] of the segmentation chart. *)
Definition color_map : gmap string string :=
  <["Power Users" := "#4361ee"]>
    (<["Active Users" := "#06d6a0"]>
       (<["Light Users" := "#f77f00"]>
          (<["Idle Users" := "#e63946"]> ∅))).

(** [color_map.get(cat, '#999999')] *)
Definition segment_color (cat : string) : string :=
  default "#999999" (color_map !! cat).

(** The number of rows of [df_users] whose category is [cat], as
    [df_users['category'].value_counts()] reports it. *)
Definition value_count (cat : string) (df_users : list UserRow) : nat :=
  length (List.filter (fun row => String.eqb (categorize_user row) cat)
            df_users).

(** ** The funnel: [len(df_users[...])] for each stage *)

Definition total_users (df_users : list UserRow) : nat := length df_users.

Definition users_with_messages (df_users : list UserRow) : nat :=
  length (List.filter (fun row => (0 <? total_messages row)%Z) df_users).

Definition users_with_convos (df_users : list UserRow) : nat :=
  length (List.filter (fun row => (0 <? total_conversations row)%Z) df_users).

Definition active_users (df_users : list UserRow) : nat :=
  length (List.filter (fun row => (20 <=? total_messages row)%Z) df_users).

Definition power_users (df_users : list UserRow) : nat :=
  length (List.filter (fun row => (100 <=? total_messages row)%Z) df_users).

(** The column [Count] of [funnel_data], in the order of its stages. *)
Definition funnel_counts (df_users : list UserRow) : list nat :=
  [total_users df_users; users_with_messages df_users;
   users_with_convos df_users; active_users df_users; power_users df_users].

(** The divisor of the column [Percentage]: [max(total_users, 1)]. *)
Definition percentage_divisor (df_users : list UserRow) : nat :=
  Nat.max (total_users df_users) 1.

(** A quotient that the report prints: its label, dividend and divisor.
    The quotient itself is a float and is not computed here. *)
Record Rate : Type := {
  rate_label : string;
  dividend : nat;
  divisor : nat
}.

(** The conversion rates that are printed, in order, with the guards
    [if total_users > 0], [if users_with_messages > 0] and
    [if active_users > 0] of the source. *)
Definition conversion_rates (df_users : list UserRow) : list Rate :=
  if 0 <? total_users df_users then
    [ {| rate_label := "Message Activation";
         dividend := users_with_messages df_users;
         divisor := total_users df_users |} ]
    ++ (if 0 <? users_with_messages df_users then
          [ {| rate_label := "Conversation Rate";
               dividend := users_with_convos df_users;
               divisor := users_with_messages df_users |};
            {| rate_label := "Active Retention";
               dividend := active_users df_users;
               divisor := users_with_messages df_users |} ]
        else [])
    ++ (if 0 <? active_users df_users then
          [ {| rate_label := "Power User Growth";
               dividend := power_users df_users;
               divisor := active_users df_users |} ]
        else [])
  else [].

(* ================================================================== *)
(** * Cleaning of the identifiers *)
(* ================================================================== *)

Definition single_quote : ascii := ascii_of_nat 39.
Definition double_quote : ascii := ascii_of_nat 34.

(** [s.replace(c, '')] for a one-character [c]. *)
Fixpoint remove_char (c : ascii) (s : string) : string :=
  match s with
  | EmptyString => EmptyString
  | String a s' =>
      if Ascii.eqb a c then remove_char c s' else String a (remove_char c s')
  end.

(** What the two chained [.str.replace] calls do to one cell of the
    column [userid]: every single quote is removed, then every double
    quote. *)
Definition strip_quotes (s : string) : string :=
  remove_char double_quote (remove_char single_quote s).

(** [c in s] for a character. *)
Fixpoint has_char (c : ascii) (s : string) : bool :=
  match s with
  | EmptyString => false
  | String a s' => Ascii.eqb a c || has_char c s'
  end.

(** The identifiers sent to the directory for a column [userid]:
    [get_usernames_batch(df['userid'].tolist())] after the cleaning. *)
Definition usernames_of_column (cfg : Config) (aws : AWS)
    (column : list string) : M (gmap string string) :=
  get_usernames_batch cfg aws (strip_quotes <$> column).

(* ================================================================== *)
(** * The theme of the page *)
(* ================================================================== *)

(** An entry of [theme_colors]. *)
Record Theme : Type := {
  bg : string;
  secondary_bg : string;
  text : string;
  border : string;
  accent : string
}.

Definition theme_colors : gmap string Theme :=
  <["light" := {| bg := "#ffffff"; secondary_bg := "#f8f9fa";
                   text := "#1f2937"; border := "#e5e7eb";
                   accent := "#1f77b4" |}]>
    (<["dark" := {| bg := "#0e1117"; secondary_bg := "#1e2530";
                     text := "#fafafa"; border := "#374151";
                     accent := "#4dabf7" |}]> ∅).

(** [if 'theme' not in st.session_state: st.session_state.theme = 'light'];
    the session state holds a theme or none yet. *)
Definition init_theme (session_theme : option string) : string :=
  default "light" session_theme.

(** The assignment made when the theme button is pressed. *)
Definition toggle_theme (theme : string) : string :=
  if String.eqb theme "light" then "dark" else "light".

(** [current_theme = theme_colors[st.session_state.theme]] *)
Definition current_theme (theme : string) : outcome Theme :=
  match theme_colors !! theme with
  | Some t => Ok t
  | None => Raise KeyError
  end.

Definition get_plotly_template (theme : string) : string :=
  if String.eqb theme "dark" then "plotly_dark" else "plotly_white".

Record ChartColors : Type := {
  paper_bgcolor : string;
  plot_bgcolor : string;
  font_color : string;
  title_color : string
}.

Definition get_chart_colors (theme : string) : ChartColors :=
  if String.eqb theme "dark" then
    {| paper_bgcolor := "#0e1117"; plot_bgcolor := "#0e1117";
       font_color := "#ffffff"; title_color := "#ffffff" |}
  else
    {| paper_bgcolor := "#ffffff"; plot_bgcolor := "#ffffff";
       font_color := "#1f2937"; title_color := "#1f2937" |}.

(** The theme after the button was pressed [n] times in a new session. *)
Fixpoint theme_after (n : nat) : string :=
  match n with
  | O => init_theme None
  | S n' => toggle_theme (theme_after n')
  end.

(* ================================================================== *)
(** * The filters of the detailed activity table *)
(* ================================================================== *)

(** A row of [df_display] with the two columns that the filters read.
    Either may be missing: the category of a user that the merge did not
    match, the number of days of a user without a last date. *)
Record ActivityRow : Type := {
  Category : option string;
  Days_Ago : option Z
}.

(** The mask [df['Days Ago'] <= k]; a comparison with a missing value is
    false. *)
Definition days_le (k : Z) (row : ActivityRow) : bool :=
  match Days_Ago row with
  | Some d => (d <=? k)%Z
  | None => false
  end.

(** The mask [df['Days Ago'] > k]. *)
Definition days_gt (k : Z) (row : ActivityRow) : bool :=
  match Days_Ago row with
  | Some d => (k <? d)%Z
  | None => false
  end.

(** The mask [df['Category'].isin(cat_filter)]. *)
Definition isin (cat_filter : list string) (row : ActivityRow) : bool :=
  match Category row with
  | Some c => existsb (String.eqb c) cat_filter
  | None => false
  end.

Section DetailTable.
(** [df.sort_values(by, ascending=...)] belongs to pandas; it is a
    parameter of which the properties below assume only that it
    reorders the rows. *)
Variable sort_values : string -> bool -> list ActivityRow -> list ActivityRow.

(** The table [df_f] that is shown for the three selections. *)
Definition filtered_table (cat_filter : list string) (rec_filter : string)
    (sort_by : string) (df_display : list ActivityRow) : list ActivityRow :=
  let df_f := df_display in
  let df_f :=
    if existsb (String.eqb "All") cat_filter then df_f
    else List.filter (isin cat_filter) df_f in
  let df_f :=
    if String.eqb rec_filter "Active (Last 7 days)"
    then List.filter (days_le 7) df_f
    else if String.eqb rec_filter "Recent (Last 30 days)"
    then List.filter (days_le 30) df_f
    else if String.eqb rec_filter "Inactive (30+ days)"
    then List.filter (days_gt 30) df_f
    else if String.eqb rec_filter "Dormant (90+ days)"
    then List.filter (days_gt 90) df_f
    else df_f in
  sort_values sort_by (String.eqb sort_by "Days Ago") df_f.

(** The metric [Filtered Users]: [len(df_f)]. *)
Definition filtered_users (df_f : list ActivityRow) : nat := length df_f.

(** The metric [Active Last Week]: [len(df_f[df_f['Days Ago'] <= 7])]. *)
Definition active_last_week (df_f : list ActivityRow) : nat :=
  length (List.filter (days_le 7) df_f).

End DetailTable.

(** A [sort_values] that only reorders the rows. *)
Definition reorders
    (sort_values : string -> bool -> list ActivityRow -> list ActivityRow)
    : Prop :=
  forall sort_by ascending df, Permutation (sort_values sort_by ascending df) df.

(** Rows of the table that have a number of days. *)
Definition has_days (row : ActivityRow) : bool :=
  match Days_Ago row with Some _ => true | None => false end.

(* ================================================================== *)
(** * Decimal numerals *)
(* ================================================================== *)

(** The characters of a decimal numeral, most significant digit first, as
    [str] prints them for an [int]. *)
Definition uint_chars (d : Decimal.uint) : list ascii :=
  list_ascii_of_string (NilEmpty.string_of_uint d).

(* ================================================================== *)
(** * Services that fail *)
(* ================================================================== *)

Module Faults.

(** The Athena client cannot be built. *)
Definition no_client : AWS :=
  {| boto3_client := fun _ => Raise (ClientError "NoCredentialsError");
     start_query_execution := fun _ _ _ _ => Ok "q-1";
     get_query_execution := fun _ _ => Ok (Scenario.status "SUCCEEDED");
     get_query_results := fun _ _ => Ok Scenario.results;
     get_tables := fun _ _ _ => Ok {| TableList := None |};
     describe_user := fun _ _ _ => Ok Scenario.alice |}.

(** The submission is refused. *)
Definition refused : AWS :=
  {| boto3_client := fun _ => Ok tt;
     start_query_execution := fun _ _ _ _ =>
       Raise (ClientError "InvalidRequestException");
     get_query_execution := fun _ _ => Ok (Scenario.status "SUCCEEDED");
     get_query_results := fun _ _ => Ok Scenario.results;
     get_tables := fun _ _ _ => Ok {| TableList := None |};
     describe_user := fun _ _ _ => Ok Scenario.alice |}.

(** The second status check is throttled. *)
Definition throttled : AWS :=
  {| boto3_client := fun _ => Ok tt;
     start_query_execution := fun _ _ _ _ => Ok "q-1";
     get_query_execution := fun n _ =>
       if n =? 1 then Ok (Scenario.status "RUNNING")
       else Raise (ClientError "ThrottlingException");
     get_query_results := fun _ _ => Ok Scenario.results;
     get_tables := fun _ _ _ => Ok {| TableList := None |};
     describe_user := fun _ _ _ => Ok Scenario.alice |}.

(** The query stays in the state running for ever. *)
Definition stuck : AWS :=
  {| boto3_client := fun _ => Ok tt;
     start_query_execution := fun _ _ _ _ => Ok "q-1";
     get_query_execution := fun _ _ => Ok (Scenario.status "RUNNING");
     get_query_results := fun _ _ => Ok Scenario.results;
     get_tables := fun _ _ _ => Ok {| TableList := None |};
     describe_user := fun _ _ _ => Ok Scenario.alice |}.

Definition world_refused : World :=
  {| requests := 1; log := [Scenario.submission] |}.

Definition world_throttled : World :=
  {| requests := 3;
     log := [Scenario.submission; GetQueryExecution "q-1"; Sleep 1;
             GetQueryExecution "q-1"] |}.

End Faults.

(* ================================================================== *)
(** * Sample tables *)
(* ================================================================== *)

Module Sample.

Definition light_user : UserRow :=
  {| total_messages := 5; total_conversations := 0 |}.

Definition active_user : UserRow :=
  {| total_messages := 25; total_conversations := 2 |}.

(** Conversations without any message. *)
Definition silent_user : UserRow :=
  {| total_messages := 0; total_conversations := 3 |}.

Definition df_users : list UserRow := [active_user; light_user; silent_user].

Definition df_display : list ActivityRow :=
  [ {| Category := Some "Active Users"; Days_Ago := Some 2%Z |};
    {| Category := Some "Light Users"; Days_Ago := Some 45%Z |};
    {| Category := None; Days_Ago := None |} ].

(** The reordering that leaves every row in its place. *)
Definition keep_order (sort_by : string) (ascending : bool)
    (df : list ActivityRow) : list ActivityRow := df.

(** A raw identifier between single quotes. *)
Definition quoted_userid : string := "'u-1'".

End Sample.

(* ================================================================== *)
(** * Properties of the coercions [safe_float] and [safe_int] *)
(* ================================================================== *)

Section CoercionFacts.
Context `{R : FloatRepr}.

Lemma truthy_false_iff (val : pyval) :
  truthy val = false <->
  val = PyNone \/ val = PyBool false \/ val = PyInt 0 \/
  (exists s, val = PyFloat (S754_zero s)) \/ val = PyStr "".
Proof.
  split.
  - destruct val as [|b|z|f|s]; simpl; intros Hv.
    + by left.
    + right; left; by subst.
    + right; right; left. apply negb_false_iff, Z.eqb_eq in Hv. by subst.
    + right; right; right; left. destruct f; try discriminate. by eexists.
    + right; right; right; right.
      apply negb_false_iff, String.eqb_eq in Hv. by subst.
  - intros [->|[->|[->|[[s ->]| ->]]]]; reflexivity.
Qed.

Lemma not_usable_default (val default : pyval) :
  usable val = false ->
  safe_float val default = Ok default /\ safe_int val default = Ok default.
Proof. unfold safe_float, safe_int. by intros ->. Qed.

Lemma falsy_not_usable (val : pyval) : truthy val = false -> usable val = false.
Proof. unfold usable. by intros ->. Qed.

Lemma blank_not_usable (val : pyval) :
  PyStr.strip (py_str val) = "" \/ PyStr.strip (py_str val) = "None" ->
  usable val = false.
Proof.
  unfold usable. intros [Hs|Hs]; rewrite Hs; by destruct (truthy val).
Qed.

(** Every case in which the coercions answer with the default: the
    value is falsy ([None], [''], ...), blank or ['None'] once trimmed,
    or [float] rejects it with [ValueError] or [TypeError]. *)
Lemma safe_default_cases (val default : pyval) :
  truthy val = false \/
  PyStr.strip (py_str val) = "" \/ PyStr.strip (py_str val) = "None" \/
  py_float val = Raise ValueError \/ py_float val = Raise TypeError ->
  safe_float val default = Ok default /\ safe_int val default = Ok default.
Proof.
  intros [Hv|[Hv|[Hv|Hv]]].
  - by apply not_usable_default, falsy_not_usable.
  - apply not_usable_default, blank_not_usable. by left.
  - apply not_usable_default, blank_not_usable. by right.
  - unfold safe_float, safe_int.
    destruct (usable val); [|done].
    by destruct Hv as [-> | ->].
Qed.

Lemma py_float_str_cases (s : string) :
  (exists f, py_float (PyStr s) = Ok f) \/ py_float (PyStr s) = Raise ValueError.
Proof. simpl. destruct (PyFloat.of_string s); eauto. Qed.



(** On a string cell [safe_float] always returns. *)
Lemma safe_float_str_total (s : string) (default : pyval) :
  exists v, safe_float (PyStr s) default = Ok v.
Proof.
  unfold safe_float. destruct (usable (PyStr s)); [|by eexists].
  destruct (py_float_str_cases s) as [[f ->]| ->]; by eexists.
Qed.


Lemma safe_int_42 (default : pyval) :
  safe_int (PyStr "42") default = Ok (PyInt 42).
Proof. reflexivity. Qed.

Lemma safe_int_3_14 (default : pyval) :
  safe_int (PyStr "3.14") default = Ok (PyInt 3).
Proof. reflexivity. Qed.

Lemma safe_int_truncates_toward_zero (default : pyval) :
  safe_int (PyStr "-3.99") default = Ok (PyInt (-3)) /\
  safe_int (PyStr "2.5") default = Ok (PyInt 2) /\
  safe_int (PyStr "3.5") default = Ok (PyInt 3).
Proof. repeat split; reflexivity. Qed.

Lemma safe_float_3_14 (default : pyval) :
  safe_float (PyStr "3.14") default
  = Ok (PyFloat (S754_finite false 7070651414971679 (-51))).
Proof. reflexivity. Qed.

Lemma safe_int_nan_default (default : pyval) :
  safe_int (PyStr "nan") default = Ok default.
Proof. reflexivity. Qed.

(** C4: the coercions are meant never to raise, yet [safe_int] lets the
    [OverflowError] of [int(float(val))] escape when the cell denotes an
    infinite float (which is how the query service prints an infinite
    double), and [safe_float] lets the [OverflowError] of [float(val)]
    escape for an integer beyond the range of a float: the [except]
    clause lists only [ValueError] and [TypeError]. *)
Theorem safe_int_raises_on_infinity (default : pyval) :
  safe_int (PyStr "Infinity") default = Raise OverflowError /\
  safe_int (PyStr "inf") default = Raise OverflowError /\
  safe_int (PyStr "-inf") default = Raise OverflowError /\
  safe_int (PyStr "1e400") default = Raise OverflowError /\
  safe_float (PyInt (10 ^ 400)) default = Raise OverflowError.
Proof. repeat split; vm_compute; reflexivity. Qed.

(** C10: every falsy value ([None], [''], [0], [0.0], [False]) makes
    [safe_float] and [safe_int] return the supplied default, never the
    value itself; a numeric zero is therefore treated exactly as a
    missing value. *)
Theorem falsy_value_returns_default (val default : pyval) :
  truthy val = false ->
  safe_float val default = Ok default /\
  safe_int val default = Ok default /\
  safe_float val default = safe_float PyNone default /\
  safe_int val default = safe_int PyNone default.
Proof.
  intros Hv.
  destruct (not_usable_default val default (falsy_not_usable val Hv))
    as [-> ->].
  repeat split; reflexivity.
Qed.

End CoercionFacts.

Lemma falsy_value_returns_default_witness :
  (truthy (PyInt 0) = false /\
   safe_int (R := Scenario.repr) (PyInt 0) (PyInt 5) = Ok (PyInt 5)) /\
  (truthy (PyFloat PyFloat.zero) = false /\
   safe_float (R := Scenario.repr) (PyFloat PyFloat.zero)
     (PyFloat Scenario.seven)
   = Ok (PyFloat Scenario.seven)).
Proof.
  split; split.
  - reflexivity.
  - apply (falsy_value_returns_default (PyInt 0) (PyInt 5)). reflexivity.
  - reflexivity.
  - apply (falsy_value_returns_default (PyFloat PyFloat.zero)
             (PyFloat Scenario.seven)). reflexivity.
Defined.

(* ================================================================== *)
(** * Properties of the resolvers *)
(* ================================================================== *)

Lemma if_truthy_set {A} (s : string) (yes : string -> A) (no : A) :
  s <> "" -> if_truthy (Some s) yes no = yes s.
Proof.
  intros Hs. unfold if_truthy, PyStr.eqb.
  destruct (String.eqb_spec s ""); [contradiction | reflexivity].
Qed.

Lemma if_truthy_unset {A} (x : option string) (yes : string -> A) (no : A) :
  truthy_opt x = false -> if_truthy x yes no = no.
Proof.
  unfold truthy_opt, if_truthy. destruct x as [s|]; [|done].
  by destruct (PyStr.eqb s "").
Qed.

Lemma if_truthy_cases {A} (x : option string) (yes : string -> A) (no : A) :
  (exists s, x = Some s /\ s <> "" /\ if_truthy x yes no = yes s) \/
  (truthy_opt x = false /\ if_truthy x yes no = no).
Proof.
  destruct x as [s|]; [|by right].
  unfold truthy_opt, if_truthy, PyStr.eqb.
  destruct (String.eqb_spec s ""); [by right | left; eauto].
Qed.

Section ResolverFacts.
Variable cfg : Config.
Variable aws : AWS.

(** C7: an override is returned at once, without any request; otherwise
    one listing bounded to a single result is sent and the name of its
    first table is returned; an empty listing and a failed listing end
    in the same failure, whatever the error of the service was. *)
Theorem resolve_table_name_cases (w : World) :
  (forall name, GLUE_TABLE_NAME cfg = Some name -> name <> "" ->
     resolve_table_name cfg aws w = (Ok name, w)) /\
  (truthy_opt (GLUE_TABLE_NAME cfg) = false ->
     let listing := GetTables (ATHENA_DATABASE cfg) 1 in
     let failure := Raise (Exception (no_tables_message cfg)) in
     (boto3_client aws "glue" = Ok tt ->
      (forall response t tables,
         get_tables aws (requests w) (ATHENA_DATABASE cfg) 1 = Ok response ->
         TableList response = Some (t :: tables) ->
         resolve_table_name cfg aws w
         = (Ok (Name t), after_request listing w)) /\
      (forall response,
         get_tables aws (requests w) (ATHENA_DATABASE cfg) 1 = Ok response ->
         TableList response = None \/ TableList response = Some [] ->
         resolve_table_name cfg aws w = (failure, after_request listing w)) /\
      (forall e,
         get_tables aws (requests w) (ATHENA_DATABASE cfg) 1 = Raise e ->
         resolve_table_name cfg aws w = (failure, after_request listing w))) /\
     (forall e, boto3_client aws "glue" = Raise e ->
        resolve_table_name cfg aws w = (failure, w))).
Proof.
  split.
  - intros name Hcfg Hname. unfold resolve_table_name.
    rewrite Hcfg. by rewrite if_truthy_set.
  - intros Hcfg listing failure. unfold resolve_table_name.
    rewrite (if_truthy_unset _ _ _ Hcfg).
    unfold bind, try_except_Exception, discover_table, bind,
      get_glue_client, lift, request.
    split; [intros Hclient; repeat split|].
    + intros response t tables Hreply Htables.
      rewrite Hclient, Hreply, Htables. reflexivity.
    + intros response Hreply Htables.
      rewrite Hclient, Hreply. by destruct Htables as [-> | ->].
    + intros e Hreply. by rewrite Hclient, Hreply.
    + intros e Hclient. by rewrite Hclient.
Qed.

Lemma if_truthy_present {A} (x : option string) (yes : string -> A) (no : A) :
  if_truthy x yes no = match present x with Some s => yes s | None => no end.
Proof.
  unfold if_truthy, present, PyStr.eqb. destruct x as [s|]; [|done].
  destruct (String.eqb_spec s ""), (decide (s = "")); done.
Qed.

(** What the [or] chain computes; the [IndexError] of an empty [Emails]
    list is the only way it can fail. *)
Lemma display_name_cases (response : DescribeUserResponse) (userid : string) :
  display_name response userid = Ok (name_by_priority response userid) \/
  (display_name response userid = Raise IndexError /\
   name_by_priority response userid = userid).
Proof.
  unfold display_name, name_by_priority, first_email.
  rewrite !if_truthy_present.
  destruct (present (UserName response)); [by left|].
  destruct (present (DisplayName response)); [by left|].
  destruct (Emails response) as [[|first rest]|]; simpl.
  - by right.
  - rewrite if_truthy_present. left. by destruct (present (Value first)).
  - by left.
Qed.

(** C5: without an identity directory the identifier is returned
    unchanged and nothing is requested; with a directory and a
    successful look-up the result is the username, else the display
    name, else the first e-mail address, else the identifier. *)
Theorem get_username_priority (userid : string) (w : World) :
  (truthy_opt (IDENTITY_STORE_ID cfg) = false ->
     get_username cfg aws userid w = (Ok userid, w)) /\
  (forall store response,
     IDENTITY_STORE_ID cfg = Some store -> store <> "" ->
     boto3_client aws "identitystore" = Ok tt ->
     describe_user aws (requests w) store userid = Ok response ->
     get_username cfg aws userid w
     = (Ok (name_by_priority response userid),
        after_request (DescribeUser store userid) w)).
Proof.
  unfold get_username. split.
  - intros Hcfg. by rewrite if_truthy_unset.
  - intros store response Hcfg Hstore Hclient Hreply.
    rewrite Hcfg, if_truthy_set by done.
    unfold try_except_Exception, bind, get_identity_store_client, lift,
      request, ret.
    rewrite Hclient, Hreply.
    by destruct (display_name_cases response userid) as [-> | [-> ->]].
Qed.

(** [get_username] always returns a name, and sends at most the one
    look-up of its identifier. *)
Lemma get_username_returns (userid : string) (w : World) :
  exists name, 
    (get_username cfg aws userid w = (Ok name, w) \/
     exists store,
       get_username cfg aws userid w
       = (Ok name, after_request (DescribeUser store userid) w)).
Proof.
  unfold get_username.
  destruct (if_truthy_cases (IDENTITY_STORE_ID cfg)
              (fun store =>
                 try_except_Exception
                   (bind (get_identity_store_client aws)
                      (fun _ =>
                         bind (request (DescribeUser store userid)
                                 (fun n => describe_user aws n store userid))
                           (fun response =>
                              lift (display_name response userid))))
                   (ret userid))
              (ret userid)) as [(store & _ & _ & ->) | [_ ->]].
  - unfold try_except_Exception, bind, get_identity_store_client, lift,
      request, ret.
    destruct (boto3_client aws "identitystore"); [|by eauto].
    destruct (describe_user aws (requests w) store userid) as [response|];
      [|by eauto].
    destruct (display_name response userid); by eauto.
  - by eauto.
Qed.

(** C6: [get_username] never raises: it returns a name in every world
    and for every behaviour of the services; whenever the look-up fails
    (the service answers with any error, such as an unknown identifier
    or a throttled request, or the client cannot be built) the
    identifier comes back unchanged. *)
Theorem get_username_never_fails (userid : string) (w : World) :
  (exists name w', get_username cfg aws userid w = (Ok name, w')) /\
  (forall store e,
     IDENTITY_STORE_ID cfg = Some store ->
     describe_user aws (requests w) store userid = Raise e ->
     exists w', get_username cfg aws userid w = (Ok userid, w')) /\
  (forall e,
     boto3_client aws "identitystore" = Raise e ->
     get_username cfg aws userid w = (Ok userid, w)).
Proof.
  repeat split.
  - destruct (get_username_returns userid w) as [name [-> | [store ->]]];
      by eauto.
  - intros store e Hcfg Hreply. unfold get_username. rewrite Hcfg.
    unfold if_truthy. destruct (PyStr.eqb store ""); [by eauto|].
    unfold try_except_Exception, bind, get_identity_store_client, lift,
      request, ret.
    destruct (boto3_client aws "identitystore"); [|by eauto].
    rewrite Hreply. by eauto.
  - intros e Hclient. unfold get_username.
    destruct (IDENTITY_STORE_ID cfg) as [store|]; [|done].
    unfold if_truthy. destruct (PyStr.eqb store ""); [done|].
    unfold try_except_Exception, bind, get_identity_store_client, lift, ret.
    by rewrite Hclient.
Qed.

End ResolverFacts.

(* ================================================================== *)
(** * Properties of the batch resolver *)
(* ================================================================== *)

Section BatchFacts.
Variable cfg : Config.
Variable aws : AWS.


Lemma is_lookup_of_mono (l l' : list string) (ev : event) :
  l ⊆ l' -> is_lookup_of l ev -> is_lookup_of l' ev.
Proof. intros Hl (store & uid & -> & Huid). exists store, uid. auto. Qed.

(** The loop of the comprehension: it always returns, extends the
    dictionary by exactly the identifiers it visits, and sends nothing
    but single-user look-ups, at most one for each identifier. *)
Lemma dict_of_usernames_runs (l : list string) :
  forall acc w,
    exists m w' evs,
      dict_of_usernames cfg aws l acc w = (Ok m, w') /\
      (forall k, is_Some (m !! k) <-> k ∈ l \/ is_Some (acc !! k)) /\
      (forall k, k ∉ l -> m !! k = acc !! k) /\
      log w' = log w ++ evs /\
      length evs <= length l /\
      Forall (is_lookup_of l) evs.
Proof.
  induction l as [|uid l IH]; intros acc w.
  - exists acc, w, []. repeat split; try done.
    + intros Hk. by right.
    + intros [Hk|Hk]; [by apply elem_of_nil in Hk | done].
    + by rewrite app_nil_r.
  - simpl. unfold bind.
    assert (exists name w1 ev1,
               get_username cfg aws uid w = (Ok name, w1) /\
               log w1 = log w ++ ev1 /\ length ev1 <= 1 /\
               Forall (is_lookup_of (uid :: l)) ev1)
      as (name & w1 & ev1 & -> & Hlog1 & Hlen1 & Hev1).
    { destruct (get_username_returns cfg aws uid w)
        as [name [Hrun | [store Hrun]]]; rewrite Hrun.
      - exists name, w, []. repeat split; try done.
        + by rewrite app_nil_r.
        + simpl; lia.
      - exists name, (after_request (DescribeUser store uid) w),
          [DescribeUser store uid].
        repeat split; try done.
        apply Forall_singleton. exists store, uid. split; [done|].
        by apply elem_of_cons; left. }
    destruct (IH (<[uid := name]> acc) w1)
      as (m & w' & evs & -> & Hdom & Hout & Hlog & Hlen & Hevs).
    exists m, w', (ev1 ++ evs). repeat split; try done.
    + intros Hk. apply Hdom in Hk as [Hk|Hk].
      * left. by apply elem_of_cons; right.
      * destruct (decide (uid = k)) as [->|Hne].
        -- left. by apply elem_of_cons; left.
        -- right. by rewrite lookup_insert_ne in Hk.
    + intros [Hk|Hk]; apply Hdom.
      * apply elem_of_cons in Hk as [->|Hk]; [|by left].
        right. by rewrite lookup_insert_eq.
      * destruct (decide (uid = k)) as [->|Hne].
        -- right. by rewrite lookup_insert_eq.
        -- right. by rewrite lookup_insert_ne.
    + intros k Hk. apply not_elem_of_cons in Hk as [Hne Hk].
      rewrite (Hout k Hk). by rewrite lookup_insert_ne.
    + by rewrite Hlog, Hlog1, app_assoc.
    + rewrite length_app. simpl. lia.
    + apply Forall_app. split; [done|].
      eapply Forall_impl; [exact Hevs|].
      intros ev. apply is_lookup_of_mono.
      intros k Hk. by apply elem_of_cons; right.
Qed.


End BatchFacts.

(* ================================================================== *)
(** * Properties of query execution *)
(* ================================================================== *)

Lemma is_terminal_iff (status : string) :
  is_terminal status = true <->
  status = "SUCCEEDED" \/ status = "FAILED" \/ status = "CANCELLED".
Proof.
  unfold is_terminal, PyStr.eqb. simpl.
  rewrite !orb_true_iff, !String.eqb_eq. intuition discriminate.
Qed.

Lemma count_app (p : event -> bool) (l1 l2 : list event) :
  count p (l1 ++ l2) = count p l1 + count p l2.
Proof. unfold count. by rewrite List.filter_app, length_app. Qed.

Lemma polling_log_S (qid : string) (n : nat) :
  polling_log qid (S n)
  = GetQueryExecution qid :: Sleep 1 :: polling_log qid n.
Proof. reflexivity. Qed.

Lemma polling_log_counts (qid : string) (n : nat) :
  status_polls (polling_log qid n) = n + 1 /\
  count is_sleep (polling_log qid n) = n /\
  count is_result_fetch (polling_log qid n) = 0.
Proof.
  induction n as [|n (IH1 & IH2 & IH3)]; [done|].
  rewrite polling_log_S. unfold status_polls, count in *. simpl.
  rewrite IH1, IH2, IH3. done.
Qed.

Section ExecutionFacts.
Variable cfg : Config.
Variable aws : AWS.

(** While the service answers with non-terminal states the loop goes
    on: after [n] such answers it has checked and slept [n] times and
    is about to check again. *)
Lemma poll_pending (qid : string) (n : nat) :
  forall fuel w,
    pending_until aws qid (requests w) n ->
    poll aws fuel qid w
    = if fuel <=? n then None
      else poll aws (fuel - n) qid (after_pending qid n w).
Proof.
  induction n as [|n IH]; intros fuel w Hpending.
  - destruct fuel as [|fuel]; [reflexivity|].
    replace (after_pending qid 0 w) with w; [reflexivity|].
    destruct w as [r l]. unfold after_pending. simpl.
    by rewrite Nat.add_0_r, app_nil_r.
  - destruct fuel as [|fuel]; [reflexivity|].
    destruct (Hpending 0) as (st & Hreply & Hstate); [lia|].
    rewrite Nat.add_0_r in Hreply.
    change (S fuel <=? S n) with (fuel <=? n).
    change (S fuel - S n) with (fuel - n).
    simpl. unfold dbind, total, request, sleep at 1.
    rewrite Hreply, Hstate. simpl.
    rewrite IH.
    + replace (after_pending qid n _) with (after_pending qid (S n) w);
        [reflexivity|].
      unfold after_pending. simpl. f_equal; [lia|].
      by rewrite <- !app_assoc.
    + intros k Hk. simpl.
      destruct (Hpending (S k)) as (st' & Hreply' & Hstate'); [lia|].
      exists st'. split; [|done].
      by replace (S (requests w + k)) with (requests w + S k) by lia.
Qed.

(** No number of non-terminal answers makes the loop give up: when the
    service never reports a terminal state the loop never returns. *)
Lemma poll_never_gives_up (qid : string) (w : World) :
  (forall n, pending_until aws qid (requests w) n) ->
  forall fuel, poll aws fuel qid w = None.
Proof.
  intros Hpending fuel.
  rewrite (poll_pending qid fuel fuel w (Hpending fuel)).
  by rewrite Nat.leb_refl.
Qed.

(** The loop stops at the first terminal state. *)
Lemma poll_terminal (qid : string) (fuel : nat) (w : World)
    (final : QueryStatus) :
  get_query_execution aws (requests w) qid = Ok final ->
  is_terminal (State final) = true ->
  poll aws (S fuel) qid w
  = Some (Ok final, after_request (GetQueryExecution qid) w).
Proof.
  intros Hreply Hstate. simpl. unfold dbind, total, request.
  by rewrite Hreply, Hstate.
Qed.

Lemma execute_schedule (query qid : string) (n : nat) (final : QueryStatus)
    (w : World) :
  boto3_client aws "athena" = Ok tt ->
  start_query_execution aws (requests w) query (ATHENA_DATABASE cfg)
    (ATHENA_OUTPUT_BUCKET cfg) = Ok qid ->
  pending_until aws qid (S (requests w)) n ->
  get_query_execution aws (S (requests w) + n) qid = Ok final ->
  is_terminal (State final) = true ->
  forall fuel,
    execute_athena_query cfg aws fuel query w
    = if fuel <=? n then None
      else Some (verdict qid final, after_polling cfg query qid n w).
Proof.
  intros Hclient Hstart Hpending Hfinal Hterminal fuel.
  unfold execute_athena_query, dbind, total, get_athena_client, lift.
  rewrite Hclient. unfold request at 1. rewrite Hstart.
  rewrite poll_pending with (n := n) by exact Hpending.
  destruct (fuel <=? n) eqn:Hfuel; [reflexivity|].
  apply Nat.leb_gt in Hfuel.
  destruct (fuel - n) as [|rest] eqn:Hrest; [lia|].
  rewrite (poll_terminal qid rest _ final); [|exact Hfinal|exact Hterminal].
  assert (after_request (GetQueryExecution qid)
            (after_pending qid n
               {| requests := S (requests w);
                  log := log w ++
                    [StartQueryExecution query (ATHENA_DATABASE cfg)
                       (ATHENA_OUTPUT_BUCKET cfg)] |})
          = after_polling cfg query qid n w) as ->.
  { unfold after_request, after_pending, after_polling, polling_log. simpl.
    f_equal; [lia|]. by rewrite <- !app_assoc. }
  unfold verdict, dret, draise.
  by destruct (PyStr.eqb (State final) "SUCCEEDED").
Qed.

Lemma fetch_data_schedule (query qid : string) (n : nat)
    (final : QueryStatus) (w : World) :
  boto3_client aws "athena" = Ok tt ->
  start_query_execution aws (requests w) query (ATHENA_DATABASE cfg)
    (ATHENA_OUTPUT_BUCKET cfg) = Ok qid ->
  pending_until aws qid (S (requests w)) n ->
  get_query_execution aws (S (requests w) + n) qid = Ok final ->
  is_terminal (State final) = true ->
  forall fuel,
    fetch_data cfg aws fuel query w
    = if fuel <=? n then None
      else match verdict qid final with
           | Ok qid' =>
               Some (omap decode
                       (get_query_results aws (requests w + n + 2) qid'),
                     after_request (GetQueryResults qid')
                       (after_polling cfg query qid n w))
           | Raise e => Some (Raise e, after_polling cfg query qid n w)
           end.
Proof.
  intros Hclient Hstart Hpending Hfinal Hterminal fuel.
  unfold fetch_data, dbind at 1, total at 1, get_athena_client, lift.
  rewrite Hclient. unfold dbind at 1.
  rewrite (execute_schedule query qid n final w) by done.
  destruct (fuel <=? n); [reflexivity|].
  destruct (verdict qid final) as [qid'|e]; [|reflexivity].
  unfold dbind, total, request, dret. simpl.
  by destruct (get_query_results aws (requests w + n + 2) qid').
Qed.

(** C1: as long as the service reports non-terminal states the loop
    keeps checking, with a sleep of one second after each such check
    and no bound on their number; it stops at the first terminal state
    (succeeded, failed or cancelled).  With [n] non-terminal states it
    has then checked [n + 1] times and slept [n] times, each sleep
    between two consecutive checks, and only then, if the query
    succeeded, are the results fetched. *)
Theorem execute_polls_until_terminal (query qid : string) (n : nat)
    (final : QueryStatus) (w : World) :
  boto3_client aws "athena" = Ok tt ->
  start_query_execution aws (requests w) query (ATHENA_DATABASE cfg)
    (ATHENA_OUTPUT_BUCKET cfg) = Ok qid ->
  pending_until aws qid (S (requests w)) n ->
  get_query_execution aws (S (requests w) + n) qid = Ok final ->
  State final = "SUCCEEDED" \/ State final = "FAILED" \/
  State final = "CANCELLED" ->
  let w' := after_polling cfg query qid n w in
  (forall fuel, fuel <= n ->
     execute_athena_query cfg aws fuel query w = None) /\
  (forall fuel, n < fuel ->
     exists r, execute_athena_query cfg aws fuel query w = Some (r, w')) /\
  log w' = log w
           ++ StartQueryExecution query (ATHENA_DATABASE cfg)
                (ATHENA_OUTPUT_BUCKET cfg)
              :: concat (replicate n [GetQueryExecution qid; Sleep 1])
           ++ [GetQueryExecution qid] /\
  status_polls (log w') = status_polls (log w) + (n + 1) /\
  count is_sleep (log w') = count is_sleep (log w) + n /\
  (State final = "SUCCEEDED" ->
   forall fuel, n < fuel ->
     execute_athena_query cfg aws fuel query w = Some (Ok qid, w') /\
     fetch_data cfg aws fuel query w
     = Some (omap decode (get_query_results aws (requests w + n + 2) qid),
             after_request (GetQueryResults qid) w')).
Proof.
  intros Hclient Hstart Hpending Hfinal Hstate w'.
  assert (is_terminal (State final) = true) as Hterminal
    by by apply is_terminal_iff.
  pose proof (execute_schedule query qid n final w Hclient Hstart Hpending
                Hfinal Hterminal) as Hexec.
  pose proof (fetch_data_schedule query qid n final w Hclient Hstart
                Hpending Hfinal Hterminal) as Hfetch.
  destruct (polling_log_counts qid n) as (Hpolls & Hsleeps & _).
  split; [|split; [|split; [|split; [|split]]]].
  - intros fuel Hfuel. rewrite Hexec.
    by apply Nat.leb_le in Hfuel as ->.
  - intros fuel Hfuel. rewrite Hexec.
    apply Nat.leb_gt in Hfuel as ->. by eexists.
  - reflexivity.
  - unfold status_polls in *. subst w'. unfold after_polling. simpl.
    rewrite count_app. change (?x :: ?l) with ([x] ++ l).
    rewrite count_app, Hpolls. reflexivity.
  - subst w'. unfold after_polling. simpl.
    rewrite count_app. change (?x :: ?l) with ([x] ++ l).
    rewrite count_app, Hsleeps. reflexivity.
  - intros Hok fuel Hfuel. rewrite Hexec, Hfetch.
    apply Nat.leb_gt in Hfuel as ->.
    unfold verdict. by rewrite Hok.
Qed.

Lemma append_empty_r (s : string) : s +:+ "" = s.
Proof.
  induction s as [|c s IH]; [done|].
  change (String c (s +:+ "") = String c s). by rewrite IH.
Qed.

Lemma contains_suffix (pre s : string) : contains s (pre +:+ s).
Proof. exists pre, "". by rewrite append_empty_r. Qed.

(** C2: when the service ends the query as failed or cancelled,
    [execute_athena_query] raises an exception whose message is
    ["Query failed: "] followed by the stated reason, or by
    ["Unknown error"] when no reason is given; [fetch_data] passes the
    exception on and does not fetch any result. *)
Theorem execute_fails_with_reason (query qid : string) (n : nat)
    (final : QueryStatus) (w : World) (fuel : nat) :
  boto3_client aws "athena" = Ok tt ->
  start_query_execution aws (requests w) query (ATHENA_DATABASE cfg)
    (ATHENA_OUTPUT_BUCKET cfg) = Ok qid ->
  pending_until aws qid (S (requests w)) n ->
  get_query_execution aws (S (requests w) + n) qid = Ok final ->
  State final = "FAILED" \/ State final = "CANCELLED" ->
  n < fuel ->
  exists msg,
    execute_athena_query cfg aws fuel query w
    = Some (Raise (Exception msg), after_polling cfg query qid n w) /\
    fetch_data cfg aws fuel query w
    = Some (Raise (Exception msg), after_polling cfg query qid n w) /\
    count is_result_fetch (log (after_polling cfg query qid n w))
    = count is_result_fetch (log w) /\
    (forall reason, StateChangeReason final = Some reason ->
       msg = "Query failed: " +:+ reason /\ contains reason msg) /\
    (StateChangeReason final = None -> msg = "Query failed: Unknown error").
Proof.
  intros Hclient Hstart Hpending Hfinal Hstate Hfuel.
  assert (is_terminal (State final) = true) as Hterminal.
  { apply is_terminal_iff. tauto. }
  assert (verdict qid final
          = Raise (Exception ("Query failed: " +:+
                     default "Unknown error" (StateChangeReason final))))
    as Hverdict.
  { unfold verdict. by destruct Hstate as [-> | ->]. }
  exists ("Query failed: " +:+ default "Unknown error" (StateChangeReason final)).
  split; [|split; [|split; [|split]]].
  - rewrite (execute_schedule query qid n final w) by done.
    apply Nat.leb_gt in Hfuel as ->. by rewrite Hverdict.
  - rewrite (fetch_data_schedule query qid n final w) by done.
    apply Nat.leb_gt in Hfuel as ->. by rewrite Hverdict.
  - unfold after_polling. simpl.
    rewrite count_app. change (?x :: ?l) with ([x] ++ l).
    rewrite count_app.
    destruct (polling_log_counts qid n) as (_ & _ & ->).
    unfold count. simpl. lia.
  - intros reason ->. split; [done | apply contains_suffix].
  - by intros ->.
Qed.

(** Whatever [fetch_data] returns was decoded from the reply to its
    last request, the fetch of the results. *)
Lemma fetch_data_returns_decoded (fuel : nat) (query : string)
    (w w' : World) (df : DataFrame) :
  fetch_data cfg aws fuel query w = Some (Ok df, w') ->
  exists qid result l,
    log w' = l ++ [GetQueryResults qid] /\
    get_query_results aws (pred (requests w')) qid = Ok result /\
    df = decode result.
Proof.
  unfold fetch_data, dbind at 1, total at 1.
  destruct (get_athena_client aws w) as [[?|?] w0]; [|discriminate].
  unfold dbind at 1.
  destruct (execute_athena_query cfg aws fuel query w0)
    as [[[qid|?] w1]|]; try discriminate.
  unfold dbind, total, request, dret.
  destruct (get_query_results aws (requests w1) qid) as [result|] eqn:Hreply;
    [|discriminate].
  intros [= <- <-]. exists qid, result, (log w1). by simpl.
Qed.


End ExecutionFacts.

(* ================================================================== *)
(** * Properties of the cache layer *)
(* ================================================================== *)

Section CacheFacts.
Context {K V S : Type} `{Countable K}.
Implicit Types (c : CacheLayer.Cache K V) (producer : S -> V * S).

Lemma invocations_snoc c (key k : K) (store' : gmap K (CacheLayer.CacheEntry V)) :
  CacheLayer.invocations key
    {| CacheLayer.store := store';
       CacheLayer.invoked := CacheLayer.invoked c ++ [k] |}
  = CacheLayer.invocations key c + (if decide (k = key) then 1 else 0).
Proof.
  unfold CacheLayer.invocations. simpl.
  rewrite filter_app, length_app. f_equal.
  destruct (decide (k = key)) as [Hk|Hk].
  - by rewrite filter_cons_True.
  - by rewrite filter_cons_False.
Qed.

(** A call that finds a fresh entry returns it and runs nothing. *)
Lemma get_hit now key ttl producer c (s : S) (v : V) :
  CacheLayer.lookup_fresh now key c = Some v ->
  CacheLayer.get now key ttl producer (c, s) = (v, (c, s)).
Proof. unfold CacheLayer.get. by intros ->. Qed.

(** A call that finds no fresh entry runs the producer once and stores
    its result with the current time. *)
Lemma get_miss now key ttl producer c (s : S) :
  CacheLayer.lookup_fresh now key c = None ->
  exists c',
    CacheLayer.get now key ttl producer (c, s)
    = (fst (producer s), (c', snd (producer s))) /\
    CacheLayer.invocations key c' = CacheLayer.invocations key c + 1 /\
    CacheLayer.store c' !! key
    = Some {| CacheLayer.value := fst (producer s);
              CacheLayer.inserted_at := now;
              CacheLayer.ttl := ttl |}.
Proof.
  intros Hmiss. unfold CacheLayer.get. rewrite Hmiss.
  destruct (producer s) as [v s']. eexists. split; [reflexivity|].
  split.
  - rewrite invocations_snoc. by rewrite decide_True.
  - simpl. by rewrite lookup_insert_eq.
Qed.

Lemma lookup_fresh_entry now key c (e : CacheLayer.CacheEntry V) :
  CacheLayer.store c !! key = Some e ->
  CacheLayer.lookup_fresh now key c
  = if (CacheLayer.ttl e <? now - CacheLayer.inserted_at e)%Z
    then None else Some (CacheLayer.value e).
Proof. unfold CacheLayer.lookup_fresh, CacheLayer.stale. by intros ->. Qed.

(** After [invalidateAll] every key misses. *)
Lemma invalidateAll_misses now key c :
  CacheLayer.lookup_fresh now key (CacheLayer.invalidateAll c) = None.
Proof.
  unfold CacheLayer.lookup_fresh, CacheLayer.invalidateAll. simpl.
  by rewrite lookup_empty.
Qed.

(** C9: a first call for a key that has no fresh entry runs the
    producer; a second call for the same key at most [ttl] later runs
    nothing and returns the cached value, so that the producer has run
    exactly once; a call after more than [ttl] runs the producer
    again. *)
Theorem get_once_within_ttl_again_after
    (key : K) (ttl : Z) producer c0 (s0 : S) (t1 t2 t3 : Z)
    (v1 v2 v3 : V) (cs1 cs2 cs3 : CacheLayer.Cache K V * S) :
  CacheLayer.lookup_fresh t1 key c0 = None ->
  (t2 - t1 <= ttl)%Z ->
  (ttl < t3 - t1)%Z ->
  CacheLayer.get t1 key ttl producer (c0, s0) = (v1, cs1) ->
  CacheLayer.get t2 key ttl producer cs1 = (v2, cs2) ->
  CacheLayer.get t3 key ttl producer cs2 = (v3, cs3) ->
  (v1, snd cs1) = producer s0 /\
  CacheLayer.invocations key (fst cs1) = CacheLayer.invocations key c0 + 1 /\
  v2 = v1 /\ cs2 = cs1 /\
  CacheLayer.invocations key (fst cs2) = CacheLayer.invocations key c0 + 1 /\
  (v3, snd cs3) = producer (snd cs2) /\
  CacheLayer.invocations key (fst cs3) = CacheLayer.invocations key c0 + 2.
Proof.
  intros Hmiss Hwithin Hafter Hget1 Hget2 Hget3.
  destruct (get_miss t1 key ttl producer c0 s0 Hmiss)
    as (c1 & Hrun1 & Hcount1 & Hentry1).
  rewrite Hrun1 in Hget1. injection Hget1 as <- <-.
  assert (CacheLayer.lookup_fresh t2 key c1 = Some (fst (producer s0)))
    as Hfresh.
  { rewrite (lookup_fresh_entry _ _ _ _ Hentry1). simpl.
    destruct (Z.ltb_spec ttl (t2 - t1)); [lia | reflexivity]. }
  rewrite (get_hit _ _ _ _ _ _ _ Hfresh) in Hget2.
  injection Hget2 as <- <-.
  assert (CacheLayer.lookup_fresh t3 key c1 = None) as Hstale.
  { rewrite (lookup_fresh_entry _ _ _ _ Hentry1). simpl.
    destruct (Z.ltb_spec ttl (t3 - t1)); [reflexivity | lia]. }
  destruct (get_miss t3 key ttl producer c1 (snd (producer s0)) Hstale)
    as (c3 & Hrun3 & Hcount3 & _).
  rewrite Hrun3 in Hget3. injection Hget3 as <- <-. simpl.
  repeat split; try done.
  - by destruct (producer s0).
  - by destruct (producer (snd (producer s0))).
  - rewrite Hcount3, Hcount1. lia.
Qed.

End CacheFacts.

(* ================================================================== *)
(** * Concrete runs *)
(* ================================================================== *)

(** C1, as stated, fails: with the states queued, running, running,
    succeeded, [fetch_data] checks the status four times before it
    fetches the results, not three times; when only three checks are
    allowed the loop has not yet ended. *)
Lemma scenario_needs_four_status_polls :
  fetch_data Scenario.cfg Scenario.succeeding 4 Scenario.query initial_world
  = Some (Ok Scenario.table, Scenario.world_fetched) /\
  status_polls (log Scenario.world_fetched) = 4 /\
  status_polls (log Scenario.world_fetched) <> 3 /\
  fetch_data Scenario.cfg Scenario.succeeding 3 Scenario.query initial_world
  = None.
Proof. repeat split. vm_compute. discriminate. Qed.

Lemma scenario_pending :
  pending_until Scenario.succeeding "q-1" 1 3.
Proof.
  intros k Hk. destruct k as [|[|[|k]]].
  - exists (Scenario.status "QUEUED"). split; reflexivity.
  - exists (Scenario.status "RUNNING"). split; reflexivity.
  - exists (Scenario.status "RUNNING"). split; reflexivity.
  - lia.
Defined.

Lemma execute_polls_until_terminal_witness :
  (fetch_data Scenario.cfg Scenario.succeeding 4 Scenario.query initial_world
   = Some (Ok Scenario.table, Scenario.world_fetched) /\
   fetch_data Scenario.cfg Scenario.succeeding 3 Scenario.query initial_world
   = None) /\
  status_polls (log Scenario.world_fetched) = 3 + 1 /\
  count is_sleep (log Scenario.world_fetched) = 3.
Proof.
  destruct (execute_polls_until_terminal Scenario.cfg Scenario.succeeding
              Scenario.query "q-1" 3 (Scenario.status "SUCCEEDED")
              initial_world)
    as (Hloop & Hret & Hlog & Hpolls & Hsleeps & Hfetch).
  - reflexivity.
  - reflexivity.
  - exact scenario_pending.
  - reflexivity.
  - left. reflexivity.
  - split; [split|split].
    + exact (proj2 (Hfetch eq_refl 4 (Nat.lt_succ_diag_r 3))).
    + reflexivity.
    + exact Hpolls.
    + exact Hsleeps.
Defined.

Lemma execute_fails_with_reason_witness :
  fetch_data Scenario.cfg Scenario.failing 1 Scenario.query initial_world
  = Some (Raise (Exception "Query failed: Syntax error in SQL"),
          Scenario.world_failed) /\
  contains "Syntax error in SQL" "Query failed: Syntax error in SQL" /\
  count is_result_fetch (log Scenario.world_failed) = 0.
Proof.
  destruct (execute_fails_with_reason Scenario.cfg Scenario.failing
              Scenario.query "q-1" 0
              {| State := "FAILED";
                 StateChangeReason := Some "Syntax error in SQL" |}
              initial_world 1)
    as (msg & Hexec & Hfetch & Hcount & Hreason & Hnone).
  - reflexivity.
  - reflexivity.
  - intros k Hk. lia.
  - reflexivity.
  - left. reflexivity.
  - lia.
  - destruct (Hreason "Syntax error in SQL" eq_refl) as [Hmsg Hcontains].
    rewrite Hmsg in Hfetch, Hcontains.
    split; [exact Hfetch | split; [exact Hcontains | exact Hcount]].
Defined.


Lemma resolve_table_name_cases_witness :
  resolve_table_name Scenario.cfg_plain Scenario.no_tables initial_world
  = (Ok "user_report", initial_world) /\
  resolve_table_name Scenario.cfg Scenario.succeeding initial_world
  = (Ok "user_report", after_request (GetTables "kiro" 1) initial_world) /\
  resolve_table_name Scenario.cfg Scenario.no_tables initial_world
  = (Raise (Exception (no_tables_message Scenario.cfg)),
     after_request (GetTables "kiro" 1) initial_world) /\
  resolve_table_name Scenario.cfg Scenario.listing_fails initial_world
  = (Raise (Exception (no_tables_message Scenario.cfg)),
     after_request (GetTables "kiro" 1) initial_world).
Proof.
  split; [|split; [|split]].
  - apply (proj1 (resolve_table_name_cases Scenario.cfg_plain
                    Scenario.no_tables initial_world) "user_report").
    + reflexivity.
    + discriminate.
  - destruct (proj2 (resolve_table_name_cases Scenario.cfg
                       Scenario.succeeding initial_world) eq_refl)
      as [Hlisted _].
    destruct (Hlisted eq_refl) as (Hfirst & _ & _).
    apply (Hfirst {| TableList := Some [ {| Name := "user_report" |} ] |}
             {| Name := "user_report" |} []); reflexivity.
  - destruct (proj2 (resolve_table_name_cases Scenario.cfg
                       Scenario.no_tables initial_world) eq_refl)
      as [Hlisted _].
    destruct (Hlisted eq_refl) as (_ & Hempty & _).
    apply (Hempty {| TableList := Some [] |}); [reflexivity|].
    right. reflexivity.
  - destruct (proj2 (resolve_table_name_cases Scenario.cfg
                       Scenario.listing_fails initial_world) eq_refl)
      as [Hlisted _].
    destruct (Hlisted eq_refl) as (_ & _ & Hfailed).
    apply (Hfailed (ClientError "AccessDeniedException")). reflexivity.
Defined.

Lemma get_username_priority_witness :
  get_username Scenario.cfg_plain Scenario.succeeding "u-1" initial_world
  = (Ok "u-1", initial_world) /\
  get_username Scenario.cfg Scenario.succeeding "u-1" initial_world
  = (Ok "alice", after_request (DescribeUser "d-1234" "u-1") initial_world).
Proof.
  split.
  - apply (proj1 (get_username_priority Scenario.cfg_plain
                    Scenario.succeeding "u-1" initial_world)).
    reflexivity.
  - apply (proj2 (get_username_priority Scenario.cfg Scenario.succeeding
                    "u-1" initial_world) "d-1234" Scenario.alice).
    + reflexivity.
    + discriminate.
    + reflexivity.
    + reflexivity.
Defined.

(** The order of preference of [name_by_priority], field by field. *)
Lemma name_by_priority_examples :
  name_by_priority
    {| UserName := Some "alice"; DisplayName := Some "Alice A.";
       Emails := Some [ {| Value := Some "a@example.com" |} ] |} "u-1"
  = "alice" /\
  name_by_priority
    {| UserName := None; DisplayName := Some "Alice A.";
       Emails := Some [ {| Value := Some "a@example.com" |} ] |} "u-1"
  = "Alice A." /\
  name_by_priority
    {| UserName := None; DisplayName := None;
       Emails := Some [ {| Value := Some "a@example.com" |};
                        {| Value := Some "b@example.com" |} ] |} "u-1"
  = "a@example.com" /\
  name_by_priority
    {| UserName := None; DisplayName := None;
       Emails := Some [ {| Value := None |};
                        {| Value := Some "b@example.com" |} ] |} "u-1"
  = "u-1" /\
  name_by_priority
    {| UserName := None; DisplayName := None; Emails := Some [] |} "u-1"
  = "u-1" /\
  name_by_priority
    {| UserName := None; DisplayName := None; Emails := None |} "u-1"
  = "u-1".
Proof. repeat split. Qed.

Lemma get_username_never_fails_witness :
  describe_user Scenario.succeeding 0 "d-1234" "u-2"
  = Raise (ClientError "ResourceNotFoundException") /\
  exists w',
    get_username Scenario.cfg Scenario.succeeding "u-2" initial_world
    = (Ok "u-2", w').
Proof.
  split; [reflexivity|].
  apply (proj1 (proj2 (get_username_never_fails Scenario.cfg
                         Scenario.succeeding "u-2" initial_world))
           "d-1234" (ClientError "ResourceNotFoundException"));
    reflexivity.
Defined.


Lemma get_once_within_ttl_again_after_witness :
  let run1 := CacheLayer.get 0 "u-1" ttl_get_username
                Scenario.counting_producer (CacheLayer.empty, 0) in
  let run2 := CacheLayer.get 3600 "u-1" ttl_get_username
                Scenario.counting_producer (snd run1) in
  let run3 := CacheLayer.get 3601 "u-1" ttl_get_username
                Scenario.counting_producer (snd run2) in
  CacheLayer.invocations "u-1" (fst (snd run2)) = 1 /\
  snd (snd run2) = 1 /\
  fst run2 = "alice" /\
  CacheLayer.invocations "u-1" (fst (snd run3)) = 2 /\
  snd (snd run3) = 2.
Proof.
  intros run1 run2 run3.
  destruct (get_once_within_ttl_again_after "u-1" ttl_get_username
              Scenario.counting_producer CacheLayer.empty 0 0 3600 3601
              (fst run1) (fst run2) (fst run3)
              (snd run1) (snd run2) (snd run3))
    as (Hfirst & Hcount1 & Hsame & Hstate & Hcount2 & Hthird & Hcount3).
  - reflexivity.
  - unfold ttl_get_username. lia.
  - unfold ttl_get_username. lia.
  - apply surjective_pairing.
  - apply surjective_pairing.
  - apply surjective_pairing.
  - split; [exact Hcount2|]. split; [reflexivity|].
    split; [reflexivity|]. split; [exact Hcount3|]. reflexivity.
Defined.

(* ================================================================== *)
(** * Further properties of query execution *)
(* ================================================================== *)

Section ExecutionFailures.
Variable cfg : Config.
Variable aws : AWS.

(** A status check that raises ends the loop at once. *)
Lemma poll_raises (qid : string) (fuel : nat) (w : World) (e : exn) :
  get_query_execution aws (requests w) qid = Raise e ->
  poll aws (S fuel) qid w
  = Some (Raise e, after_request (GetQueryExecution qid) w).
Proof.
  intros Hreply. simpl. unfold dbind, total, request. by rewrite Hreply.
Qed.

Lemma after_polling_unfold (query qid : string) (n : nat) (w : World) :
  after_request (GetQueryExecution qid)
    (after_pending qid n
       (after_request
          (StartQueryExecution query (ATHENA_DATABASE cfg)
             (ATHENA_OUTPUT_BUCKET cfg)) w))
  = after_polling cfg query qid n w.
Proof.
  unfold after_request, after_pending, after_polling, polling_log. simpl.
  f_equal; [lia|]. by rewrite <- !app_assoc.
Qed.

(** X1: a failure before the polling loop is passed on unchanged by
    [execute_athena_query] and [fetch_data], for every bound on the loop:
    when the Athena client cannot be built nothing at all is requested,
    and when the submission is refused the submission is the only
    request, so no status check and no fetch of results follows. *)
Theorem failure_before_polling (query : string) (e : exn) (w : World)
    (fuel : nat) :
  (boto3_client aws "athena" = Raise e ->
   execute_athena_query cfg aws fuel query w = Some (Raise e, w) /\
   fetch_data cfg aws fuel query w = Some (Raise e, w)) /\
  (boto3_client aws "athena" = Ok tt ->
   start_query_execution aws (requests w) query (ATHENA_DATABASE cfg)
     (ATHENA_OUTPUT_BUCKET cfg) = Raise e ->
   let w' := after_request
               (StartQueryExecution query (ATHENA_DATABASE cfg)
                  (ATHENA_OUTPUT_BUCKET cfg)) w in
   execute_athena_query cfg aws fuel query w = Some (Raise e, w') /\
   fetch_data cfg aws fuel query w = Some (Raise e, w')).
Proof.
  split.
  - intros Hclient.
    unfold fetch_data, execute_athena_query, dbind, total,
      get_athena_client, lift.
    by rewrite Hclient.
  - intros Hclient Hstart w'.
    unfold fetch_data, execute_athena_query, dbind, total,
      get_athena_client, lift, request.
    by rewrite Hclient, Hstart.
Qed.

(** X2: when a status check itself raises, after [n] checks that saw
    non-terminal states, the loop stops there: [execute_athena_query] and
    [fetch_data] raise that exception, the failed check is the last
    request, no sleep follows it and no results are fetched. *)
Theorem status_failure_propagates (query qid : string) (n : nat) (e : exn)
    (w : World) (fuel : nat) :
  boto3_client aws "athena" = Ok tt ->
  start_query_execution aws (requests w) query (ATHENA_DATABASE cfg)
    (ATHENA_OUTPUT_BUCKET cfg) = Ok qid ->
  pending_until aws qid (S (requests w)) n ->
  get_query_execution aws (S (requests w) + n) qid = Raise e ->
  n < fuel ->
  let w' := after_polling cfg query qid n w in
  execute_athena_query cfg aws fuel query w = Some (Raise e, w') /\
  fetch_data cfg aws fuel query w = Some (Raise e, w') /\
  last (log w') = Some (GetQueryExecution qid) /\
  count is_sleep (log w') = count is_sleep (log w) + n /\
  count is_result_fetch (log w') = count is_result_fetch (log w).
Proof.
  intros Hclient Hstart Hpending Hfinal Hfuel w'.
  assert (execute_athena_query cfg aws fuel query w = Some (Raise e, w'))
    as Hexec.
  { unfold execute_athena_query, dbind, total, get_athena_client, lift.
    rewrite Hclient. unfold request at 1. rewrite Hstart.
    rewrite poll_pending with (n := n) by exact Hpending.
    apply Nat.leb_gt in Hfuel as Hleb. rewrite Hleb.
    destruct (fuel - n) as [|rest] eqn:Hrest; [lia|].
    rewrite (poll_raises qid rest _ e) by exact Hfinal.
    subst w'. by rewrite <- after_polling_unfold. }
  split; [exact Hexec|]. split.
  - unfold fetch_data, dbind at 1, total at 1, get_athena_client, lift.
    rewrite Hclient. unfold dbind at 1. by rewrite Hexec.
  - destruct (polling_log_counts qid n) as (_ & Hsleeps & Hfetches).
    subst w'. unfold after_polling, polling_log. simpl.
    split; [|split].
    + rewrite app_comm_cons, app_assoc. apply last_snoc.
    + rewrite count_app. change (?x :: ?l) with ([x] ++ l).
      rewrite count_app. fold (polling_log qid n). rewrite Hsleeps.
      reflexivity.
    + rewrite count_app. change (?x :: ?l) with ([x] ++ l).
      rewrite count_app. fold (polling_log qid n). rewrite Hfetches.
      unfold count. simpl. lia.
Qed.

(** X3: there is no time-out: as long as every status check reports a
    non-terminal state, neither [execute_athena_query] nor [fetch_data]
    returns, however many iterations of the loop are allowed. *)
Theorem never_returns_while_pending (query qid : string) (w : World) :
  boto3_client aws "athena" = Ok tt ->
  start_query_execution aws (requests w) query (ATHENA_DATABASE cfg)
    (ATHENA_OUTPUT_BUCKET cfg) = Ok qid ->
  (forall n, pending_until aws qid (S (requests w)) n) ->
  forall fuel,
    execute_athena_query cfg aws fuel query w = None /\
    fetch_data cfg aws fuel query w = None.
Proof.
  intros Hclient Hstart Hpending fuel.
  assert (execute_athena_query cfg aws fuel query w = None) as Hexec.
  { unfold execute_athena_query, dbind, total, get_athena_client, lift.
    rewrite Hclient. unfold request at 1. rewrite Hstart.
    by rewrite poll_never_gives_up. }
  split; [exact Hexec|].
  unfold fetch_data, dbind at 1, total at 1, get_athena_client, lift.
  rewrite Hclient. unfold dbind at 1. by rewrite Hexec.
Qed.

End ExecutionFailures.

(* ================================================================== *)
(** * Further properties of the batch resolver *)
(* ================================================================== *)

Section BatchRequests.
Variable cfg : Config.
Variable aws : AWS.


(** Without a directory, or without a client for it, [get_username] is
    the identity and sends nothing. *)
Lemma get_username_offline (userid : string) (w : World) :
  truthy_opt (IDENTITY_STORE_ID cfg) = false \/
  (exists e, boto3_client aws "identitystore" = Raise e) ->
  get_username cfg aws userid w = (Ok userid, w).
Proof.
  unfold get_username. intros [Hcfg | [e Hclient]].
  - by rewrite if_truthy_unset.
  - destruct (IDENTITY_STORE_ID cfg) as [store|]; [|done].
    unfold if_truthy. destruct (PyStr.eqb store ""); [done|].
    unfold try_except_Exception, bind, get_identity_store_client, lift, ret.
    by rewrite Hclient.
Qed.


Lemma dict_of_usernames_offline (l : list string) :
  truthy_opt (IDENTITY_STORE_ID cfg) = false \/
  (exists e, boto3_client aws "identitystore" = Raise e) ->
  forall acc w,
    exists m,
      dict_of_usernames cfg aws l acc w = (Ok m, w) /\
      forall uid,
        m !! uid = if decide (uid ∈ l) then Some uid else acc !! uid.
Proof.
  intros Hoff. induction l as [|uid l IH]; intros acc w.
  - exists acc. split; [done|]. intros k.
    destruct (decide (k ∈ [])) as [Hk|]; [|done].
    by apply elem_of_nil in Hk.
  - simpl. unfold bind. rewrite get_username_offline by done.
    destruct (IH (<[uid := uid]> acc) w) as (m & -> & Hm).
    exists m. split; [done|]. intros k. rewrite Hm.
    destruct (decide (k ∈ l)) as [Hk|Hk].
    + rewrite decide_True; [done|]. by apply elem_of_cons; right.
    + destruct (decide (uid = k)) as [->|Hne].
      * rewrite lookup_insert_eq, decide_True; [done|].
        by apply elem_of_cons; left.
      * rewrite lookup_insert_ne by done.
        rewrite decide_False; [done|].
        intros [?|?]%elem_of_cons; congruence.
Qed.


(** X5: without a directory, or when the client for it cannot be built,
    [get_usernames_batch] maps every requested identifier to itself,
    holds no other key and sends no request. *)
Theorem batch_offline_is_identity (userids : list string) (w : World) :
  truthy_opt (IDENTITY_STORE_ID cfg) = false \/
  (exists e, boto3_client aws "identitystore" = Raise e) ->
  exists m,
    get_usernames_batch cfg aws userids w = (Ok m, w) /\
    forall uid, m !! uid = if decide (uid ∈ userids) then Some uid else None.
Proof.
  intros Hoff. unfold get_usernames_batch.
  destruct (dict_of_usernames_offline userids Hoff ∅ w) as (m & Hrun & Hm).
  exists m. split; [done|]. intros uid. rewrite Hm.
  by rewrite lookup_empty.
Qed.

End BatchRequests.

(* ================================================================== *)
(** * Properties of the cleaning of identifiers *)
(* ================================================================== *)

Lemma has_char_remove_same (c : ascii) (s : string) :
  has_char c (remove_char c s) = false.
Proof.
  induction s as [|a s IH]; [done|]. simpl.
  destruct (Ascii.eqb a c) eqn:Hac; [done|]. simpl. by rewrite Hac.
Qed.

Lemma has_char_remove_other (c d : ascii) (s : string) :
  has_char c s = false -> has_char c (remove_char d s) = false.
Proof.
  induction s as [|a s IH]; [done|]. simpl.
  intros [Ha Hs]%orb_false_iff.
  destruct (Ascii.eqb a d); simpl; [by apply IH|].
  rewrite Ha. by apply IH.
Qed.

Lemma remove_char_absent (c : ascii) (s : string) :
  has_char c s = false -> remove_char c s = s.
Proof.
  induction s as [|a s IH]; [done|]. simpl.
  intros [Ha Hs]%orb_false_iff. rewrite Ha. by rewrite IH.
Qed.

Lemma remove_char_length (c : ascii) (s : string) :
  String.length (remove_char c s) <= String.length s.
Proof.
  induction s as [|a s IH]; [done|]. simpl.
  destruct (Ascii.eqb a c); simpl; lia.
Qed.

Lemma has_char_remove_keeps (c d : ascii) (s : string) :
  c <> d -> has_char c (remove_char d s) = has_char c s.
Proof.
  intros Hcd. induction s as [|a s IH]; [done|]. simpl.
  destruct (Ascii.eqb_spec a d) as [->|Had]; simpl.
  - destruct (Ascii.eqb_spec d c) as [->|_]; [done|]. by rewrite IH.
  - by rewrite IH.
Qed.

(** X6: the cleaning of an identifier leaves no single and no double
    quote in it, changes nothing in an identifier without quotes, never
    lengthens it, keeps every other character, and cleaning twice is the
    same as cleaning once. *)
Theorem strip_quotes_removes_all_quotes (s : string) :
  has_char single_quote (strip_quotes s) = false /\
  has_char double_quote (strip_quotes s) = false /\
  strip_quotes (strip_quotes s) = strip_quotes s /\
  (has_char single_quote s = false -> has_char double_quote s = false ->
   strip_quotes s = s) /\
  String.length (strip_quotes s) <= String.length s /\
  (forall c, c <> single_quote -> c <> double_quote ->
     has_char c (strip_quotes s) = has_char c s).
Proof.
  unfold strip_quotes.
  assert (has_char single_quote
            (remove_char double_quote (remove_char single_quote s)) = false)
    as Hsingle.
  { apply has_char_remove_other, has_char_remove_same. }
  assert (has_char double_quote
            (remove_char double_quote (remove_char single_quote s)) = false)
    as Hdouble by apply has_char_remove_same.
  split; [exact Hsingle|]. split; [exact Hdouble|].
  split; [|split; [|split]].
  - rewrite (remove_char_absent single_quote) by exact Hsingle.
    by rewrite (remove_char_absent double_quote) by exact Hdouble.
  - intros Hs Hd. rewrite (remove_char_absent single_quote s) by exact Hs.
    by apply remove_char_absent.
  - etrans; [apply remove_char_length|apply remove_char_length].
  - intros c Hc1 Hc2.
    rewrite has_char_remove_keeps by done.
    by rewrite has_char_remove_keeps by done.
Qed.

Lemma strip_quotes_parts (s : string) :
  has_char single_quote (strip_quotes s) = false /\
  has_char double_quote (strip_quotes s) = false.
Proof.
  unfold strip_quotes. split.
  - apply has_char_remove_other, has_char_remove_same.
  - apply has_char_remove_same.
Qed.

Section ColumnFacts.
Variable cfg : Config.
Variable aws : AWS.

(** X7: for a column of raw identifiers, every look-up that is sent
    carries an identifier without quotes, and every row finds a name
    under its cleaned identifier, so that the column [username] built
    with [map] has no missing value. *)
Theorem column_lookups_are_clean (column : list string) (w : World) :
  exists m w' evs,
    usernames_of_column cfg aws column w = (Ok m, w') /\
    log w' = log w ++ evs /\
    (forall store uid,
       DescribeUser store uid ∈ evs ->
       has_char single_quote uid = false /\
       has_char double_quote uid = false) /\
    (forall s, s ∈ column -> is_Some (m !! strip_quotes s)).
Proof.
  unfold usernames_of_column, get_usernames_batch.
  destruct (dict_of_usernames_runs cfg aws (strip_quotes <$> column) ∅ w)
    as (m & w' & evs & Hrun & Hdom & _ & Hlog & _ & Hevs).
  exists m, w', evs. split; [done|]. split; [done|]. split.
  - intros store uid Hin.
    rewrite Forall_forall in Hevs.
    destruct (Hevs _ Hin) as (store' & uid' & [= <- <-] & Huid).
    apply list_elem_of_fmap in Huid as (s & -> & _).
    destruct (strip_quotes_parts s) as [Hs Hd]. done.
  - intros s Hs. apply Hdom. left.
    apply list_elem_of_fmap. by exists s.
Qed.

End ColumnFacts.

(* ================================================================== *)
(** * Properties of the engagement report *)
(* ================================================================== *)

Ltac split_comparisons :=
  repeat match goal with
    | |- context [(?a <=? ?b)%Z] => destruct (Z.leb_spec a b)
    | |- context [(?a <? ?b)%Z] => destruct (Z.ltb_spec a b)
    end.

Lemma categorize_user_cases (row : UserRow) :
  categorize_user row = "Power Users" \/
  categorize_user row = "Active Users" \/
  categorize_user row = "Light Users" \/
  categorize_user row = "Idle Users".
Proof. unfold categorize_user. split_comparisons; simpl; tauto. Qed.

(** X8: the decision table of [categorize_user].  A row is idle exactly
    when it has no message and fewer than 5 conversations, so a user
    with one to four conversations and no message counts as idle; it is
    light exactly with 1 to 19 messages and fewer than 5 conversations. *)
Theorem categorize_user_table (row : UserRow) :
  let m := total_messages row in
  let c := total_conversations row in
  (categorize_user row = "Power Users" <-> (100 <= m \/ 20 <= c)%Z) /\
  (categorize_user row = "Active Users" <->
     ((20 <= m \/ 5 <= c) /\ m < 100 /\ c < 20)%Z) /\
  (categorize_user row = "Light Users" <-> (0 < m < 20 /\ c < 5)%Z) /\
  (categorize_user row = "Idle Users" <-> (m <= 0 /\ c < 5)%Z).
Proof.
  intros m c. subst m c. unfold categorize_user.
  split_comparisons; simpl;
    repeat split; intros; try discriminate; try lia; try reflexivity.
Qed.

(** X9: the category never drops when a user has more messages and more
    conversations. *)
Theorem categorize_user_monotone (row row' : UserRow) :
  (total_messages row <= total_messages row')%Z ->
  (total_conversations row <= total_conversations row')%Z ->
  category_rank (categorize_user row) <= category_rank (categorize_user row').
Proof.
  intros Hm Hc. unfold categorize_user.
  split_comparisons; unfold category_rank; simpl; lia.
Qed.

(** X10: every category that [categorize_user] produces has a colour of
    its own in [color_map]: the fallback colour is never used, and two
    segments of the chart have the same colour only if they are the same
    category. *)
Theorem categories_have_distinct_colors (row row' : UserRow) :
  is_Some (color_map !! categorize_user row) /\
  segment_color (categorize_user row) <> "#999999" /\
  (segment_color (categorize_user row) = segment_color (categorize_user row')
   -> categorize_user row = categorize_user row').
Proof.
  destruct (categorize_user_cases row) as [-> | [-> | [-> | ->]]];
    destruct (categorize_user_cases row') as [-> | [-> | [-> | ->]]];
    (split; [by eexists | split; [vm_compute; discriminate |]]);
    vm_compute; intros; congruence.
Qed.

Lemma filter_length_le {A} (p q : A -> bool) (l : list A) :
  (forall x, p x = true -> q x = true) ->
  length (List.filter p l) <= length (List.filter q l).
Proof.
  intros Hpq. induction l as [|x l IH]; [done|]. simpl.
  destruct (p x) eqn:Hp.
  - rewrite (Hpq x Hp). simpl. lia.
  - destruct (q x); simpl; lia.
Qed.

Lemma filter_length_total {A} (p : A -> bool) (l : list A) :
  length (List.filter p l) <= length l.
Proof.
  induction l as [|x l IH]; [done|]. simpl. destruct (p x); simpl; lia.
Qed.

Lemma funnel_chain (df_users : list UserRow) :
  power_users df_users <= active_users df_users /\
  active_users df_users <= users_with_messages df_users /\
  users_with_messages df_users <= total_users df_users /\
  users_with_convos df_users <= total_users df_users.
Proof.
  unfold power_users, active_users, users_with_messages, users_with_convos,
    total_users.
  repeat split.
  - apply filter_length_le. intros row Hrow.
    apply Z.leb_le in Hrow. apply Z.leb_le. lia.
  - apply filter_length_le. intros row Hrow.
    apply Z.leb_le in Hrow. apply Z.ltb_lt. lia.
  - apply filter_length_total.
  - apply filter_length_total.
Qed.

(** X11: the funnel narrows from stage to stage along the messages: the
    power users are among the active users, these among the users who
    sent a message, these among all users; the users who had a
    conversation are among all users; and no count exceeds the divisor of
    the percentages, which is never zero. *)
Theorem funnel_narrows (df_users : list UserRow) :
  power_users df_users <= active_users df_users /\
  active_users df_users <= users_with_messages df_users /\
  users_with_messages df_users <= total_users df_users /\
  users_with_convos df_users <= total_users df_users /\
  0 < percentage_divisor df_users /\
  Forall (fun n => n <= percentage_divisor df_users) (funnel_counts df_users).
Proof.
  destruct (funnel_chain df_users) as (H1 & H2 & H3 & H4).
  repeat (split; [assumption|]).
  unfold percentage_divisor, funnel_counts.
  split; [lia|]. repeat constructor; lia.
Qed.

(** X12: every conversion rate that is printed has a divisor that is not
    zero, and every one except the conversation rate is at most 100%; the
    conversation rate can be above 100%, because users without a message
    can have conversations. *)
Theorem conversion_rates_are_defined :
  (forall df_users r,
     r ∈ conversion_rates df_users ->
     0 < divisor r /\
     (rate_label r <> "Conversation Rate" -> dividend r <= divisor r)) /\
  (exists df_users r,
     r ∈ conversion_rates df_users /\ divisor r < dividend r).
Proof.
  split.
  - intros df_users r. unfold conversion_rates.
    destruct (funnel_chain df_users) as (H1 & H2 & H3 & H4).
    destruct (Nat.ltb_spec 0 (total_users df_users)) as [Ht|Ht];
      [|by intros ?%elem_of_nil].
    destruct (Nat.ltb_spec 0 (users_with_messages df_users)) as [Hm|Hm];
      destruct (Nat.ltb_spec 0 (active_users df_users)) as [Ha|Ha];
      simpl; intros Hr;
      repeat (apply elem_of_cons in Hr as [-> | Hr]);
      try (by apply elem_of_nil in Hr); simpl; split; try lia; done.
  - exists [ {| total_messages := 1; total_conversations := 1 |};
             {| total_messages := 0; total_conversations := 1 |} ].
    exists {| rate_label := "Conversation Rate"; dividend := 2;
              divisor := 1 |}.
    split; [|simpl; lia].
    vm_compute. apply elem_of_cons. right. apply elem_of_cons. by left.
Qed.

(** X13: the categories partition the users, and the funnel agrees with
    them: the counts of the four categories add up to the number of all
    users; every user of the funnel stage of power users is in the
    category of power users; every user of its active stage is a power
    or an active user; and no user who sent a message is idle. *)
Theorem categories_partition_users (df_users : list UserRow) :
  value_count "Power Users" df_users + value_count "Active Users" df_users
  + value_count "Light Users" df_users + value_count "Idle Users" df_users
  = total_users df_users /\
  power_users df_users <= value_count "Power Users" df_users /\
  active_users df_users
  <= value_count "Power Users" df_users + value_count "Active Users" df_users /\
  users_with_messages df_users + value_count "Idle Users" df_users
  <= total_users df_users.
Proof.
  unfold value_count, power_users, active_users, users_with_messages,
    total_users.
  induction df_users as [|row df IH]; [done|].
  simpl. remember (categorize_user row) as cat eqn:Hcat.
  revert Hcat. unfold categorize_user at 1.
  split_comparisons; simpl; intros ->; simpl; lia.
Qed.

(* ================================================================== *)
(** * Properties of the theme *)
(* ================================================================== *)

Lemma theme_after_cases (n : nat) :
  (theme_after n = "light" /\ Nat.even n = true) \/
  (theme_after n = "dark" /\ Nat.even n = false).
Proof.
  induction n as [|n [[IH He] | [IH He]]].
  - by left.
  - right. simpl theme_after. rewrite IH. split; [reflexivity|].
    rewrite Nat.even_succ, <- Nat.negb_even, He. reflexivity.
  - left. simpl theme_after. rewrite IH. split; [reflexivity|].
    rewrite Nat.even_succ, <- Nat.negb_even, He. reflexivity.
Qed.

(** X14: however often the theme button is pressed in a session, the
    theme is light after an even number of presses and dark after an odd
    number, [theme_colors] has an entry for it (no [KeyError]), and the
    background of the charts is the background of the page.  Whatever
    the stored theme is, one press leads to a theme with an entry. *)
Theorem theme_is_always_defined (n : nat) :
  (theme_after n = "light" <-> Nat.even n = true) /\
  (theme_after n = "dark" <-> Nat.even n = false) /\
  (exists t,
     current_theme (theme_after n) = Ok t /\
     paper_bgcolor (get_chart_colors (theme_after n)) = bg t /\
     plot_bgcolor (get_chart_colors (theme_after n)) = bg t) /\
  (forall stored, exists t, current_theme (toggle_theme stored) = Ok t).
Proof.
  split; [|split; [|split]].
  - destruct (theme_after_cases n) as [[-> ->] | [-> ->]]; split; done.
  - destruct (theme_after_cases n) as [[-> ->] | [-> ->]]; split; done.
  - destruct (theme_after_cases n) as [[-> _] | [-> _]];
      eexists; repeat split; reflexivity.
  - intros stored. unfold toggle_theme.
    destruct (String.eqb stored "light"); eexists; reflexivity.
Qed.

(* ================================================================== *)
(** * Further properties of the coercions *)
(* ================================================================== *)

Lemma lstrip_with_all (sp : ascii -> bool) (l : list ascii) :
  Forall (fun c => sp c = true) l -> PyStr.lstrip_with sp l = [].
Proof.
  induction 1 as [|c l Hc _ IH]; [done|]. simpl. by rewrite Hc.
Qed.

Lemma strip_all_space (s : string) :
  Forall (fun c => PyStr.is_space c = true) (list_ascii_of_string s) ->
  PyStr.strip s = "".
Proof.
  intros Hs. unfold PyStr.strip, PyStr.strip_with.
  by rewrite (lstrip_with_all _ _ Hs).
Qed.

Section CoercionResults.
Context `{R : FloatRepr}.

(** X15: on a string, [safe_float] never raises: it returns the default,
    or the float that [float] reads from the string. *)
Theorem safe_float_returns_on_str (s : string) (default : pyval) :
  exists v,
    safe_float (PyStr s) default = Ok v /\
    (v = default \/ exists f, PyFloat.of_string s = Some f /\ v = PyFloat f).
Proof.
  unfold safe_float. destruct (usable (PyStr s)); [|by eauto].
  simpl. destruct (PyFloat.of_string s) as [f|]; simpl; by eauto 6.
Qed.


(** X17: a string cell that is empty, consists of white space only,
    reads [None] once trimmed, or is not accepted by [float], makes both
    coercions return the default. *)
Theorem unusable_cells_give_default (s : string) (default : pyval) :
  Forall (fun c => PyStr.is_space c = true) (list_ascii_of_string s) \/
  PyStr.strip s = "None" \/
  PyFloat.of_string s = None ->
  safe_float (PyStr s) default = Ok default /\
  safe_int (PyStr s) default = Ok default.
Proof.
  intros [Hs | [Hs | Hs]].
  - apply not_usable_default, blank_not_usable. left.
    by apply strip_all_space.
  - apply not_usable_default, blank_not_usable. by right.
  - unfold safe_float, safe_int. destruct (usable (PyStr s)); [|done].
    simpl. by rewrite Hs.
Qed.

(** X18: what the coercions return is the default or a number of the
    requested kind: [safe_int] returns the default or an [int],
    [safe_float] the default or a [float]. *)
Theorem coercions_return_number_or_default (val default v : pyval) :
  (safe_int val default = Ok v -> v = default \/ exists z, v = PyInt z) /\
  (safe_float val default = Ok v -> v = default \/ exists f, v = PyFloat f).
Proof.
  unfold safe_int, safe_float. split.
  - destruct (usable val); [|intros [= <-]; by left].
    destruct (py_float val) as [f|e]; simpl.
    + destruct (PyFloat.to_Z f) as [z|e]; simpl.
      * intros [= <-]. right. by eexists.
      * destruct (is_ValueError_or_TypeError e); [|discriminate].
        intros [= <-]. by left.
    + destruct (is_ValueError_or_TypeError e); [|discriminate].
      intros [= <-]. by left.
  - destruct (usable val); [|intros [= <-]; by left].
    destruct (py_float val) as [f|e]; simpl.
    + intros [= <-]. right. by eexists.
    + destruct (is_ValueError_or_TypeError e); [|discriminate].
      intros [= <-]. by left.
Qed.

(** X19: a cell that the service left without a value is decoded to the
    empty string and then coerced to the default, by both coercions. *)
Theorem null_cell_coerces_to_default (field : Datum) (default : pyval) :
  VarCharValue field = None ->
  safe_float (PyStr (cell_text field)) default = Ok default /\
  safe_int (PyStr (cell_text field)) default = Ok default.
Proof.
  intros Hnull. unfold cell_text. rewrite Hnull. simpl.
  apply not_usable_default. reflexivity.
Qed.

End CoercionResults.

(* ================================================================== *)
(** * Reading back printed integers *)
(* ================================================================== *)

Lemma take_digits_acc (d : Decimal.uint) :
  forall acc cnt,
    PyFloat.take_digits (Npos acc) cnt (uint_chars d)
    = (Npos (Pos.of_uint_acc d acc), cnt + Decimal.nb_digits d, []).
Proof.
  unfold uint_chars.
  induction d as [|d IH|d IH|d IH|d IH|d IH|d IH|d IH|d IH|d IH|d IH];
    intros acc cnt; simpl.
  1: by rewrite Nat.add_0_r.
  all: change (PyFloat.is_digit _) with true; cbv iota.
  all: rewrite <- Nat.add_succ_comm, <- IH; f_equal; unfold PyFloat.digit_val; simpl N_of_ascii; lia.
Qed.

Lemma take_digits_zero (d : Decimal.uint) :
  forall cnt,
    PyFloat.take_digits 0 cnt (uint_chars d)
    = (Pos.of_uint d, cnt + Decimal.nb_digits d, []).
Proof.
  induction d as [|d IH|d IH|d IH|d IH|d IH|d IH|d IH|d IH|d IH|d IH];
    intros cnt.
  1: { simpl. by rewrite Nat.add_0_r. }
  1: { unfold uint_chars in *. simpl. change (PyFloat.is_digit _) with true; cbv iota.
    rewrite <- Nat.add_succ_comm, <- IH. reflexivity. }
  all: unfold uint_chars; simpl; change (PyFloat.is_digit _) with true; cbv iota.
  all: rewrite <- Nat.add_succ_comm; apply (take_digits_acc d).
Qed.

Lemma digit_not_special (c : ascii) :
  PyFloat.is_digit c = true ->
  PyFloat.is_space c = false /\ PyStr.is_space c = false /\
  PyFloat.is_underscore c = false.
Proof.
  unfold PyFloat.is_digit, PyFloat.is_space, PyStr.is_space,
    PyFloat.is_underscore.
  generalize (nat_of_ascii c). intros n.
  intros [H1%Nat.leb_le H2%Nat.leb_le]%andb_true_iff.
  repeat split.
  all: repeat match goal with
       | |- context [?a <=? ?b] => destruct (Nat.leb_spec a b)
       | |- context [?a =? ?b] => destruct (Nat.eqb_spec a b)
       end; simpl; try reflexivity; lia.
Qed.

Lemma uint_chars_digits (d : Decimal.uint) :
  Forall (fun c => PyFloat.is_digit c = true) (uint_chars d).
Proof.
  unfold uint_chars.
  induction d; simpl; constructor; try reflexivity; assumption.
Qed.

Lemma lstrip_with_keep (sp : ascii -> bool) (l : list ascii) :
  Forall (fun c => sp c = false) l -> PyStr.lstrip_with sp l = l.
Proof. destruct 1 as [|c l Hc _]; [done|]. simpl. by rewrite Hc. Qed.

Lemma strip_with_keep (sp : ascii -> bool) (l : list ascii) :
  Forall (fun c => sp c = false) l -> PyStr.strip_with sp l = l.
Proof.
  intros Hl. unfold PyStr.strip_with.
  rewrite (lstrip_with_keep sp l Hl).
  rewrite lstrip_with_keep by by apply List.Forall_rev.
  apply rev_involutive.
Qed.

Lemma drop_underscores_keep (l : list ascii) :
  Forall (fun c => PyFloat.is_underscore c = false) l ->
  forall prev,
    match prev with Some p => PyFloat.is_underscore p = false | None => True end ->
    PyFloat.drop_underscores prev l = Some l.
Proof.
  induction 1 as [|c l Hc _ IH]; intros prev Hprev; simpl.
  - destruct prev as [p|]; [by rewrite Hprev | done].
  - rewrite Hc. destruct prev as [p|].
    + rewrite Hprev. simpl. by rewrite (IH (Some c) Hc).
    + by rewrite (IH (Some c) Hc).
Qed.

Lemma parse_digits (neg : bool) (d : Decimal.uint) :
  d <> Decimal.Nil ->
  PyFloat.take_sign (uint_chars d) = (false, uint_chars d) /\
  PyFloat.parse_inf_nan neg (uint_chars d) = None /\
  PyFloat.parse_decimal (uint_chars d) = Some (Pos.of_uint d, 0%Z, []).
Proof.
  intros Hd. split; [|split].
  - unfold uint_chars. destruct d; try done; reflexivity.
  - unfold uint_chars. destruct d; try done; reflexivity.
  - unfold PyFloat.parse_decimal. rewrite take_digits_zero.
    destruct d; try done; reflexivity.
Qed.

Lemma string_of_uint_nonnil (d : Decimal.uint) :
  d <> Decimal.Nil ->
  list_ascii_of_string (NilZero.string_of_uint d) = uint_chars d.
Proof. destruct d; try done. Qed.

Lemma minus_not_special :
  PyFloat.is_space "-" = false /\ PyFloat.is_underscore "-" = false.
Proof. split; reflexivity. Qed.

Lemma of_string_digits (neg : bool) (d : Decimal.uint) (sign : list ascii) :
  d <> Decimal.Nil ->
  (neg = false /\ sign = []) \/ (neg = true /\ sign = ["-"%char]) ->
  forall s, list_ascii_of_string s = sign ++ uint_chars d ->
  PyFloat.of_string s = Some (PyFloat.of_decimal neg (Pos.of_uint d) 0).
Proof.
  intros Hd Hsign s Hs. unfold PyFloat.of_string. rewrite Hs.
  assert (Forall (fun c => PyFloat.is_space c = false) (sign ++ uint_chars d)
          /\ Forall (fun c => PyFloat.is_underscore c = false)
               (sign ++ uint_chars d)) as [Hsp Hus].
  { split; apply Forall_app; split.
    - destruct Hsign as [[_ ->] | [_ ->]]; repeat constructor.
    - eapply Forall_impl; [apply uint_chars_digits|].
      intros c Hc. by apply digit_not_special.
    - destruct Hsign as [[_ ->] | [_ ->]]; repeat constructor.
    - eapply Forall_impl; [apply uint_chars_digits|].
      intros c Hc. by apply digit_not_special. }
  rewrite (strip_with_keep _ _ Hsp).
  rewrite (drop_underscores_keep _ Hus None I).
  destruct (parse_digits neg d Hd) as (Hts & Hinf & Hdec).
  destruct Hsign as [[-> ->] | [-> ->]]; simpl app.
  - rewrite Hts, Hinf, Hdec. reflexivity.
  - change (PyFloat.take_sign ("-"%char :: uint_chars d))
      with (true, uint_chars d).
    cbv iota beta. rewrite Hinf, Hdec. reflexivity.
Qed.

Lemma of_string_of_Z (n : Z) :
  PyFloat.of_string (PyStr.of_Z n)
  = Some (PyFloat.of_decimal (n <? 0)%Z (Z.abs_N n) 0).
Proof.
  destruct n as [|p|p].
  - reflexivity.
  - change (Z.abs_N (Z.pos p)) with (N.pos p).
    rewrite <- (DecimalPos.Unsigned.of_to p).
    apply (of_string_digits false (Pos.to_uint p) []).
    + apply Unsigned.to_uint_nonnil.
    + by left.
    + unfold PyStr.of_Z. simpl.
      apply string_of_uint_nonnil, Unsigned.to_uint_nonnil.
  - change (Z.abs_N (Z.neg p)) with (N.pos p).
    rewrite <- (DecimalPos.Unsigned.of_to p).
    apply (of_string_digits true (Pos.to_uint p) ["-"%char]).
    + apply Unsigned.to_uint_nonnil.
    + by right.
    + unfold PyStr.of_Z. simpl. f_equal.
      apply string_of_uint_nonnil, Unsigned.to_uint_nonnil.
Qed.

Lemma div_eucl_1 (x : Z) : Z.div_eucl x 1 = (x, 0%Z).
Proof.
  pose proof (Z.div_1_r x) as Hq. pose proof (Z.mod_1_r x) as Hr.
  unfold Z.div, Z.modulo in *. destruct (Z.div_eucl x 1). simpl in *.
  by subst.
Qed.

Lemma digits2_pos_size (p : positive) : digits2_pos p = Pos.size p.
Proof. induction p as [p IH|p IH|]; simpl; by rewrite ?IH. Qed.

Lemma digits2_log2 (p : positive) :
  Z.pos (digits2_pos p) = (Z.log2 (Z.pos p) + 1)%Z.
Proof.
  rewrite digits2_pos_size. destruct p as [p|p|]; simpl; lia.
Qed.


Lemma of_ratio_small (neg : bool) (p : positive) :
  (Z.log2 (Z.pos p) < 53)%Z ->
  exists q,
    Z.pos q = Z.shiftl (Z.pos p) (52 - Z.log2 (Z.pos p)) /\
    PyFloat.of_ratio neg p 1 = S754_finite neg q (Z.log2 (Z.pos p) - 52).
Proof.
  intros HL. pose proof (Z.log2_nonneg (Z.pos p)) as HL0.
  remember (Z.log2 (Z.pos p)) as L eqn:HeqL.
  assert (exists q, Z.pos q = Z.shiftl (Z.pos p) (52 - L)) as [q Hq].
  { rewrite Z.shiftl_mul_pow2 by lia.
    pose proof (Z.pow_pos_nonneg 2 (52 - L)) as Hpow.
    destruct (Z.pos p * 2 ^ (52 - L))%Z eqn:Hprod; try lia.
    by eexists. }
  assert (Z.shiftl (Z.pos p) (53 - L) = Z.pos q~0) as Hm.
  { rewrite Pos2Z.inj_xO, Hq, !Z.shiftl_mul_pow2 by lia.
    replace (53 - L)%Z with (Z.succ (52 - L)) by lia.
    rewrite Z.pow_succ_r by lia. lia. }
  assert (digits2_pos q = 53%positive) as Hdq.
  { apply Pos2Z.inj. rewrite digits2_log2, Hq.
    rewrite Z.log2_shiftl by lia. lia. }
  exists q. split; [exact Hq|].
  unfold PyFloat.of_ratio, SFdiv_core_binary. rewrite div_eucl_1.
  change (Zdigits2 (Z.pos p)) with (Z.pos (digits2_pos p)).
  rewrite digits2_log2, <- HeqL.
  change (Zdigits2 1) with 1%Z.
  unfold fexp, emin, PyFloat.prec, PyFloat.emax.
  replace (((L + 1 + 0 - (1 + 0) - 53) `max` (3 - 1024 - 53)) `min` (0 - 0))%Z
    with (L - 53)%Z by lia.
  replace (0 - 0 - (L - 53))%Z with (53 - L)%Z by lia.
  rewrite Hm.
  destruct (53 - L)%Z eqn:Hs; try lia.
  change (new_location 1 0) with loc_Exact.
  unfold binary_round_aux, shr_fexp.
  change (Zdigits2 (Z.pos q~0)) with (Z.pos (Pos.succ (digits2_pos q))).
  rewrite Hdq. change (Z.pos (Pos.succ 53)) with 54%Z.
  unfold fexp, emin.
  replace ((54 + (L - 53) - 53) `max` (3 - 1024 - 53) - (L - 53))%Z
    with 1%Z by lia.
  cbn [shr shr_record_of_loc SpecFloat.iter_pos shr_1 shr_m
       loc_of_shr_record round_nearest_even].
  change (false || false) with false. cbv iota.
  change (round_nearest_even (Z.pos q) loc_Exact) with (Z.pos q).
  change (Zdigits2 (Z.pos q)) with (Z.pos (digits2_pos q)). rewrite Hdq.
  replace ((53 + (L - 53 + 1) - 53) `max` (3 - 1024 - 53) - (L - 53 + 1))%Z
    with 0%Z by lia.
  cbn [shr shr_m].
  destruct (Z.leb_spec (L - 53 + 1) (1024 - 53)); [|lia].
  f_equal. lia.
Qed.

Lemma to_Z_of_ratio (neg : bool) (p : positive) :
  (Z.pos p <= 2 ^ 53)%Z ->
  PyFloat.to_Z (PyFloat.of_ratio neg p 1)
  = Ok (if neg then Z.neg p else Z.pos p).
Proof.
  intros Hp.
  destruct (Z.eq_dec (Z.pos p) (2 ^ 53)%Z) as [Heq|Hne].
  - assert (p = 9007199254740992%positive) as -> by lia.
    by destruct neg; vm_compute.
  - assert (Z.log2 (Z.pos p) < 53)%Z as HL.
    { apply Z.log2_lt_pow2; lia. }
    pose proof (Z.log2_nonneg (Z.pos p)) as HL0.
    destruct (of_ratio_small neg p HL) as (q & Hq & ->).
    unfold PyFloat.to_Z.
    assert (Z.pos q ≫ (52 - Z.log2 (Z.pos p)) = Z.pos p)%Z as Hback.
    { rewrite Hq, Z.shiftr_shiftl_l by lia.
      replace (52 - Z.log2 (Z.pos p) - (52 - Z.log2 (Z.pos p)))%Z
        with 0%Z by lia.
      apply Z.shiftl_0_r. }
    destruct (Z.log2 (Z.pos p) - 52)%Z as [|k|k] eqn:He; try lia.
    + replace (52 - Z.log2 (Z.pos p))%Z with 0%Z in Hback by lia.
      rewrite Z.shiftr_0_r in Hback. rewrite Z.shiftl_0_r.
      injection Hback as ->. by destruct neg.
    + replace (52 - Z.log2 (Z.pos p))%Z with (Z.pos k) in Hback by lia.
      rewrite Hback. by destruct neg.
Qed.


Section IntegerCells.
Context `{R : FloatRepr}.

Lemma of_Z_chars (n : Z) :
  exists sign d,
    d <> Decimal.Nil /\
    (sign = [] \/ sign = ["-"%char]) /\
    list_ascii_of_string (PyStr.of_Z n) = sign ++ uint_chars d.
Proof.
  destruct n as [|p|p].
  - exists [], (Decimal.D0 Decimal.Nil).
    split; [done|]. split; [by left | reflexivity].
  - exists [], (Pos.to_uint p). split; [apply Unsigned.to_uint_nonnil|].
    split; [by left|].
    unfold PyStr.of_Z. simpl.
    apply string_of_uint_nonnil, Unsigned.to_uint_nonnil.
  - exists ["-"%char], (Pos.to_uint p).
    split; [apply Unsigned.to_uint_nonnil|]. split; [by right|].
    unfold PyStr.of_Z. simpl. f_equal.
    apply string_of_uint_nonnil, Unsigned.to_uint_nonnil.
Qed.

(** The text of an integer passes the guard of the coercions. *)
Lemma usable_of_Z (n : Z) : usable (PyStr (PyStr.of_Z n)) = true.
Proof.
  destruct (of_Z_chars n) as (sign & d & Hd & Hsign & Hchars).
  assert (PyStr.strip (PyStr.of_Z n) = PyStr.of_Z n) as Hstrip.
  { unfold PyStr.strip. rewrite Hchars, strip_with_keep.
    - by rewrite <- Hchars, string_of_list_ascii_of_string.
    - apply Forall_app. split.
      + destruct Hsign as [-> | ->]; repeat constructor.
      + eapply Forall_impl; [apply uint_chars_digits|].
        intros c Hc. by apply digit_not_special. }
  unfold usable. simpl py_str. rewrite Hstrip.
  assert (exists c s', PyStr.of_Z n = String c s' /\
                       (c = "-"%char \/ PyFloat.is_digit c = true))
    as (c & s' & -> & Hc).
  { destruct (PyStr.of_Z n) as [|c s'] eqn:Hs.
    - simpl in Hchars. destruct Hsign as [-> | ->]; [|done].
      unfold uint_chars in Hchars. by destruct d.
    - exists c, s'. split; [done|]. simpl in Hchars.
      destruct Hsign as [-> | ->].
      + right. simpl in Hchars.
        pose proof (uint_chars_digits d) as Hall.
        rewrite <- Hchars in Hall. by inversion Hall.
      + left. by injection Hchars. }
  unfold truthy, not_in_blank_or_None, PyStr.eqb. simpl.
  destruct Hc as [-> | Hc]; [reflexivity|].
  destruct (Ascii.eqb_spec c "N") as [-> | _]; [discriminate | reflexivity].
Qed.

(** X20: the text of an integer of at most 2^53 in absolute value is
    read back exactly: [safe_int] returns that integer, and [safe_float]
    a float whose integer part is that integer. *)
Theorem safe_int_reads_back_integers (n : Z) (default : pyval) :
  (Z.abs n <= 2 ^ 53)%Z ->
  safe_int (PyStr (PyStr.of_Z n)) default = Ok (PyInt n) /\
  exists f,
    safe_float (PyStr (PyStr.of_Z n)) default = Ok (PyFloat f) /\
    PyFloat.to_Z f = Ok n.
Proof.
  intros Hn.
  assert (PyFloat.to_Z (PyFloat.of_decimal (n <? 0)%Z (Z.abs_N n) 0) = Ok n)
    as Hback.
  { destruct n as [|p|p]; [reflexivity| |].
    - apply (to_Z_of_ratio false p). lia.
    - apply (to_Z_of_ratio true p). lia. }
  unfold safe_int, safe_float. rewrite usable_of_Z.
  simpl py_float. rewrite of_string_of_Z. simpl. rewrite Hback.
  split; [reflexivity|]. by eexists.
Qed.

End IntegerCells.

(* ================================================================== *)
(** * Properties of the filters of the activity table *)
(* ================================================================== *)

Lemma filter_length_perm {A} (p : A -> bool) (l l' : list A) :
  Permutation l l' ->
  length (List.filter p l) = length (List.filter p l').
Proof.
  induction 1 as [|x l l' _ IH|x y l|l l' l'' _ IH1 _ IH2]; simpl.
  - reflexivity.
  - destruct (p x); simpl; lia.
  - destruct (p x), (p y); simpl; lia.
  - lia.
Qed.

Lemma filter_filter_length {A} (p q : A -> bool) (l : list A) :
  (forall x, q x = true -> p x = true) ->
  length (List.filter p (List.filter q l)) = length (List.filter q l).
Proof.
  intros Hqp. induction l as [|x l IH]; [done|]. simpl.
  destruct (q x) eqn:Hq; [|done]. simpl. rewrite (Hqp x Hq). simpl. lia.
Qed.

Lemma filter_filter_none {A} (p q : A -> bool) (l : list A) :
  (forall x, q x = true -> p x = false) ->
  length (List.filter p (List.filter q l)) = 0.
Proof.
  intros Hqp. induction l as [|x l IH]; [done|]. simpl.
  destruct (q x) eqn:Hq; [|done]. simpl. by rewrite (Hqp x Hq).
Qed.

Lemma days_le_gt_split (k : Z) (l : list ActivityRow) :
  length (List.filter (days_le k) l) + length (List.filter (days_gt k) l)
  = length (List.filter has_days l).
Proof.
  induction l as [|row l IH]; [done|]. simpl.
  unfold days_le, days_gt, has_days in *.
  destruct (Days_Ago row) as [d|]; [|done].
  destruct (Z.leb_spec d k), (Z.ltb_spec k d); simpl; lia.
Qed.

Lemma filter_isin_nil (df : list ActivityRow) :
  List.filter (isin []) df = [].
Proof.
  induction df as [|row df IH]; [done|]. simpl.
  unfold isin at 1. destruct (Category row); simpl; exact IH.
Qed.

Section DetailFacts.
Variable sort_values : string -> bool -> list ActivityRow -> list ActivityRow.
Hypothesis sort_reorders : reorders sort_values.

(** The table before it is sorted. *)
Lemma filtered_table_length (p : ActivityRow -> bool)
    (cat_filter : list string) (rec_filter sort_by : string)
    (df_display : list ActivityRow) :
  length (List.filter p
            (filtered_table sort_values cat_filter rec_filter sort_by
               df_display))
  = length (List.filter p
              (filtered_table (fun _ _ df => df) cat_filter rec_filter
                 sort_by df_display)).
Proof.
  unfold filtered_table. apply filter_length_perm, sort_reorders.
Qed.

Lemma filtered_users_unsorted (cat_filter : list string)
    (rec_filter sort_by : string) (df_display : list ActivityRow) :
  filtered_users
    (filtered_table sort_values cat_filter rec_filter sort_by df_display)
  = filtered_users
      (filtered_table (fun _ _ df => df) cat_filter rec_filter sort_by
         df_display).
Proof.
  unfold filtered_users, filtered_table.
  apply Permutation_length, sort_reorders.
Qed.

(** X21: the two counters above the table agree with the selection: the
    users active last week are among the filtered users; with the
    selection of the last 7 days the two counters are equal; with the
    selection of the inactive or of the dormant users the counter of the
    last week is 0; and the table never has more rows than the unfiltered
    one. *)
Theorem table_metrics_agree (cat_filter : list string)
    (rec_filter sort_by : string) (df_display : list ActivityRow) :
  let df_f := filtered_table sort_values cat_filter rec_filter sort_by
                df_display in
  active_last_week df_f <= filtered_users df_f /\
  (rec_filter = "Active (Last 7 days)" ->
   active_last_week df_f = filtered_users df_f) /\
  (rec_filter = "Inactive (30+ days)" \/ rec_filter = "Dormant (90+ days)" ->
   active_last_week df_f = 0) /\
  filtered_users df_f <= length df_display.
Proof.
  intros df_f. subst df_f. unfold active_last_week.
  rewrite filtered_table_length, filtered_users_unsorted.
  unfold filtered_users, filtered_table.
  set (df_c := if existsb (String.eqb "All") cat_filter then df_display
               else List.filter (isin cat_filter) df_display).
  assert (length df_c <= length df_display) as Hc.
  { subst df_c. destruct (existsb _ cat_filter); [done|].
    apply filter_length_total. }
  split; [apply filter_length_total|]. split; [|split].
  - intros ->. simpl. apply filter_filter_length. done.
  - intros [-> | ->]; simpl; apply filter_filter_none;
      intros row; unfold days_gt, days_le;
      destruct (Days_Ago row) as [d|]; try done;
      intros Hd%Z.ltb_lt; apply Z.leb_gt; lia.
  - repeat match goal with
      | |- context [String.eqb ?a ?b] => destruct (String.eqb a b)
      end;
      try (etrans; [apply filter_length_total | exact Hc]); exact Hc.
Qed.

(** X22: the selections by recency split the users that have a number of
    days: the recent and the inactive users together are exactly these
    users, a user without a number of days being shown only with the
    selection of all users; the users of the last 7 days are among the
    recent ones and the dormant among the inactive ones. *)
Theorem recency_filters_split (cat_filter : list string) (sort_by : string)
    (df_display : list ActivityRow) :
  let shown rec_filter :=
    filtered_table sort_values cat_filter rec_filter sort_by df_display in
  filtered_users (shown "Recent (Last 30 days)")
  + filtered_users (shown "Inactive (30+ days)")
  = length (List.filter has_days (shown "All Users")) /\
  filtered_users (shown "Active (Last 7 days)")
  <= filtered_users (shown "Recent (Last 30 days)") /\
  filtered_users (shown "Dormant (90+ days)")
  <= filtered_users (shown "Inactive (30+ days)").
Proof.
  intros shown. subst shown. cbv beta.
  rewrite filtered_table_length, !filtered_users_unsorted.
  unfold filtered_users, filtered_table. simpl.
  set (df_c := if existsb (String.eqb "All") cat_filter then df_display
               else List.filter (isin cat_filter) df_display).
  split; [apply days_le_gt_split|]. split.
  - apply filter_length_le. intros row. unfold days_le.
    destruct (Days_Ago row) as [d|]; [|done].
    intros Hd%Z.leb_le. apply Z.leb_le. lia.
  - apply filter_length_le. intros row. unfold days_gt.
    destruct (Days_Ago row) as [d|]; [|done].
    intros Hd%Z.ltb_lt. apply Z.ltb_lt. lia.
Qed.

(** X23: the selection of categories: as soon as [All] is among the
    selected entries the other entries have no effect; otherwise every
    row shown has one of the selected categories, and with nothing
    selected the table is empty. *)
Theorem category_filter_selects (cat_filter : list string)
    (rec_filter sort_by : string) (df_display : list ActivityRow) :
  let df_f := filtered_table sort_values cat_filter rec_filter sort_by
                df_display in
  (In "All" cat_filter ->
   Permutation df_f
     (filtered_table sort_values ["All"] rec_filter sort_by df_display)) /\
  (~ In "All" cat_filter ->
   Forall (fun row => exists c, Category row = Some c /\ In c cat_filter)
     df_f) /\
  (cat_filter = [] -> df_f = []).
Proof.
  intros df_f. subst df_f.
  assert (forall l, Permutation
            (filtered_table sort_values l rec_filter sort_by df_display)
            (filtered_table (fun _ _ df => df) l rec_filter sort_by
               df_display)) as Hperm.
  { intros l. unfold filtered_table. apply sort_reorders. }
  split; [|split].
  - intros Hall. rewrite !Hperm. unfold filtered_table.
    assert (existsb (String.eqb "All") cat_filter = true) as ->.
    { apply existsb_exists. exists "All". split; [done|].
      apply String.eqb_refl. }
    reflexivity.
  - intros Hnone.
    eapply Permutation_Forall; [symmetry; apply Hperm|].
    unfold filtered_table.
    assert (existsb (String.eqb "All") cat_filter = false) as ->.
    { apply not_true_is_false. intros (x & Hx & <-%String.eqb_eq)%existsb_exists.
      done. }
    assert (Forall (fun row => exists c, Category row = Some c /\ In c cat_filter)
              (List.filter (isin cat_filter) df_display)) as Hcat.
    { apply List.Forall_forall. intros row [_ Hrow]%filter_In.
      unfold isin in Hrow. destruct (Category row) as [c|]; [|done].
      apply existsb_exists in Hrow as (x & Hx & <-%String.eqb_eq).
      by exists c. }
    assert (forall p l,
              Forall (fun row => exists c, Category row = Some c /\ In c cat_filter) l ->
              Forall (fun row => exists c, Category row = Some c /\ In c cat_filter)
                (List.filter p l)) as Hkeep.
    { intros p l Hl. apply List.Forall_forall.
      intros row [Hrow _]%filter_In.
      by eapply List.Forall_forall in Hl. }
    cbv zeta iota.
    repeat match goal with
      | |- context [String.eqb ?a ?b] => destruct (String.eqb a b)
      end; cbv iota; first [exact Hcat | apply Hkeep; exact Hcat].
  - intros ->.
    apply Permutation_nil. symmetry. rewrite Hperm.
    unfold filtered_table. simpl.
    rewrite filter_isin_nil.
    repeat match goal with
      | |- context [String.eqb ?a ?b] => destruct (String.eqb a b)
      end; reflexivity.
Qed.

End DetailFacts.

(* ================================================================== *)
(** * Concrete runs of the further properties *)
(* ================================================================== *)

Lemma failure_before_polling_witness :
  fetch_data Scenario.cfg Faults.no_client 4 Scenario.query initial_world
  = Some (Raise (ClientError "NoCredentialsError"), initial_world) /\
  fetch_data Scenario.cfg Faults.refused 4 Scenario.query initial_world
  = Some (Raise (ClientError "InvalidRequestException"), Faults.world_refused).
Proof.
  split.
  - apply (proj1 (failure_before_polling Scenario.cfg Faults.no_client
                    Scenario.query (ClientError "NoCredentialsError")
                    initial_world 4)).
    reflexivity.
  - apply (proj2 (failure_before_polling Scenario.cfg Faults.refused
                    Scenario.query (ClientError "InvalidRequestException")
                    initial_world 4)); reflexivity.
Defined.

Lemma throttled_pending : pending_until Faults.throttled "q-1" 1 1.
Proof.
  intros k Hk. destruct k as [|k]; [|lia].
  exists (Scenario.status "RUNNING"). split; reflexivity.
Defined.

Lemma status_failure_propagates_witness :
  fetch_data Scenario.cfg Faults.throttled 2 Scenario.query initial_world
  = Some (Raise (ClientError "ThrottlingException"), Faults.world_throttled) /\
  last (log Faults.world_throttled) = Some (GetQueryExecution "q-1").
Proof.
  destruct (status_failure_propagates Scenario.cfg Faults.throttled
              Scenario.query "q-1" 1 (ClientError "ThrottlingException")
              initial_world 2)
    as (_ & Hfetch & Hlast & _).
  - reflexivity.
  - reflexivity.
  - exact throttled_pending.
  - reflexivity.
  - lia.
  - split; [exact Hfetch | exact Hlast].
Defined.

Lemma stuck_pending (n : nat) : pending_until Faults.stuck "q-1" 1 n.
Proof.
  intros k Hk. exists (Scenario.status "RUNNING"). split; reflexivity.
Defined.

Lemma never_returns_while_pending_witness :
  execute_athena_query Scenario.cfg Faults.stuck 1000 Scenario.query
    initial_world = None /\
  fetch_data Scenario.cfg Faults.stuck 1000 Scenario.query initial_world
  = None.
Proof.
  apply (never_returns_while_pending Scenario.cfg Faults.stuck
           Scenario.query "q-1" initial_world).
  - reflexivity.
  - reflexivity.
  - exact stuck_pending.
Defined.


Lemma batch_offline_is_identity_witness :
  exists m,
    get_usernames_batch Scenario.cfg_plain Scenario.succeeding
      ["u-1"; "u-2"] initial_world = (Ok m, initial_world) /\
    m !! "u-2" = Some "u-2" /\
    m !! "u-3" = None.
Proof.
  destruct (batch_offline_is_identity Scenario.cfg_plain Scenario.succeeding
              ["u-1"; "u-2"] initial_world)
    as (m & Hrun & Hm).
  - left. reflexivity.
  - exists m. split; [exact Hrun|]. split.
    + rewrite Hm. reflexivity.
    + rewrite Hm. reflexivity.
Defined.

Lemma strip_quotes_removes_all_quotes_witness :
  strip_quotes Sample.quoted_userid = "u-1" /\
  has_char single_quote (strip_quotes Sample.quoted_userid) = false /\
  strip_quotes "u-1" = "u-1".
Proof.
  destruct (strip_quotes_removes_all_quotes Sample.quoted_userid)
    as (Hsingle & _).
  destruct (strip_quotes_removes_all_quotes "u-1") as (_ & _ & _ & Hid & _).
  split; [reflexivity|]. split; [exact Hsingle|].
  apply Hid; reflexivity.
Defined.

Lemma column_lookups_are_clean_witness :
  exists m w',
    usernames_of_column Scenario.cfg Scenario.succeeding
      [Sample.quoted_userid; "u-2"] initial_world = (Ok m, w') /\
    is_Some (m !! "u-1").
Proof.
  destruct (column_lookups_are_clean Scenario.cfg Scenario.succeeding
              [Sample.quoted_userid; "u-2"] initial_world)
    as (m & w' & evs & Hrun & _ & _ & Hnames).
  exists m, w'. split; [exact Hrun|].
  apply (Hnames Sample.quoted_userid). apply elem_of_cons. left. reflexivity.
Defined.

Lemma categorize_user_table_witness :
  categorize_user Sample.silent_user = "Idle Users" /\
  categorize_user Sample.light_user = "Light Users".
Proof.
  destruct (categorize_user_table Sample.silent_user) as (_ & _ & _ & Hidle).
  destruct (categorize_user_table Sample.light_user) as (_ & _ & Hlight & _).
  split.
  - apply Hidle. simpl. lia.
  - apply Hlight. simpl. lia.
Defined.

Lemma categorize_user_monotone_witness :
  category_rank (categorize_user Sample.light_user)
  <= category_rank (categorize_user Sample.active_user).
Proof.
  apply (categorize_user_monotone Sample.light_user Sample.active_user).
  - simpl. lia.
  - simpl. lia.
Defined.

Lemma categories_have_distinct_colors_witness :
  segment_color (categorize_user Sample.active_user) <> "#999999" /\
  is_Some (color_map !! categorize_user Sample.silent_user).
Proof.
  split.
  - apply (categories_have_distinct_colors Sample.active_user
             Sample.active_user).
  - apply (categories_have_distinct_colors Sample.silent_user
             Sample.silent_user).
Defined.

Lemma conversion_rates_are_defined_witness :
  Forall (fun r => 0 < divisor r) (conversion_rates Sample.df_users).
Proof.
  apply Forall_forall. intros r Hr.
  apply (proj1 conversion_rates_are_defined Sample.df_users r Hr).
Defined.

Lemma theme_is_always_defined_witness :
  theme_after 3 = "dark" /\ theme_after 4 = "light".
Proof.
  split.
  - apply (proj1 (proj2 (theme_is_always_defined 3))). reflexivity.
  - apply (proj1 (theme_is_always_defined 4)). reflexivity.
Defined.


Lemma unusable_cells_give_default_witness :
  safe_int (R := Scenario.repr) (PyStr "   ") (PyInt 0) = Ok (PyInt 0) /\
  safe_int (R := Scenario.repr) (PyStr " None ") (PyInt 0) = Ok (PyInt 0) /\
  safe_float (R := Scenario.repr) (PyStr "n/a") (PyInt 0) = Ok (PyInt 0).
Proof.
  split; [|split].
  - apply (unusable_cells_give_default (R := Scenario.repr) "   " (PyInt 0)).
    left. repeat constructor.
  - apply (unusable_cells_give_default (R := Scenario.repr) " None "
             (PyInt 0)).
    right. left. reflexivity.
  - apply (unusable_cells_give_default (R := Scenario.repr) "n/a" (PyInt 0)).
    right. right. reflexivity.
Defined.

Lemma coercions_return_number_or_default_witness :
  PyInt 42 = PyInt 0 \/ exists z, PyInt 42 = PyInt z.
Proof.
  apply (proj1 (coercions_return_number_or_default (R := Scenario.repr)
                  (PyStr "42") (PyInt 0) (PyInt 42))).
  reflexivity.
Defined.

Lemma null_cell_coerces_to_default_witness :
  safe_int (R := Scenario.repr) (PyStr (cell_text Scenario.null_cell))
    (PyInt 0) = Ok (PyInt 0).
Proof.
  apply (null_cell_coerces_to_default (R := Scenario.repr)
           Scenario.null_cell (PyInt 0)).
  reflexivity.
Defined.

(** The bound of [safe_int_reads_back_integers] cannot be raised: the
    next integer is not read back. *)
Lemma safe_int_reads_back_integers_witness :
  safe_int (R := Scenario.repr) (PyStr (PyStr.of_Z (-9007199254740992)))
    (PyInt 0) = Ok (PyInt (-9007199254740992)) /\
  safe_int (R := Scenario.repr) (PyStr (PyStr.of_Z 9007199254740993))
    (PyInt 0) = Ok (PyInt 9007199254740992).
Proof.
  split.
  - apply (safe_int_reads_back_integers (R := Scenario.repr)
             (-9007199254740992) (PyInt 0)).
    vm_compute. discriminate.
  - vm_compute. reflexivity.
Defined.

Lemma keep_order_reorders : reorders Sample.keep_order.
Proof. intros sort_by ascending df. apply Permutation_refl. Defined.

Lemma table_metrics_agree_witness :
  active_last_week
    (filtered_table Sample.keep_order ["All"] "Inactive (30+ days)"
       "Days Ago" Sample.df_display) = 0 /\
  filtered_users
    (filtered_table Sample.keep_order ["All"] "Inactive (30+ days)"
       "Days Ago" Sample.df_display) = 1.
Proof.
  destruct (table_metrics_agree Sample.keep_order keep_order_reorders
              ["All"] "Inactive (30+ days)" "Days Ago" Sample.df_display)
    as (_ & _ & Hzero & _).
  split; [|reflexivity].
  apply Hzero. left. reflexivity.
Defined.

Lemma recency_filters_split_witness :
  filtered_users
    (filtered_table Sample.keep_order ["All"] "Recent (Last 30 days)"
       "Days Ago" Sample.df_display)
  + filtered_users
      (filtered_table Sample.keep_order ["All"] "Inactive (30+ days)"
         "Days Ago" Sample.df_display)
  = 2 /\
  filtered_users
    (filtered_table Sample.keep_order ["All"] "All Users" "Days Ago"
       Sample.df_display) = 3.
Proof.
  destruct (recency_filters_split Sample.keep_order keep_order_reorders
              ["All"] "Days Ago" Sample.df_display) as (Hsplit & _).
  split; [exact Hsplit | reflexivity].
Defined.

Lemma category_filter_selects_witness :
  filtered_table Sample.keep_order [] "All Users" "Days Ago"
    Sample.df_display = [] /\
  length (filtered_table Sample.keep_order ["Light Users"] "All Users"
            "Days Ago" Sample.df_display) = 1.
Proof.
  destruct (category_filter_selects Sample.keep_order keep_order_reorders
              [] "All Users" "Days Ago" Sample.df_display)
    as (_ & _ & Hempty).
  split; [by apply Hempty | reflexivity].
Defined.
